(** * The interactive line editor of [ai.py]

    A shallow embedding of [AI.get_char], [AI.run] and [main] from
    [src/ai.py], and the properties of the editing session that the
    specification states about them.

    Python strings are lists of code points, [position] is a Python
    integer, slices follow Python's clamping rules.  The terminal, the
    standard streams and the process environment are an explicit
    [World] threaded through a state-and-exception monad; the language
    model, the configuration loader and the child process are
    parameters of the development. *)

From Stdlib Require Import ZArith NArith List String Ascii DecimalString Lia.
From stdpp Require Import base tactics option list gmap relations.
Import ListNotations.

Local Open Scope Z_scope.

(** ** Python strings *)

(** A Python [str] is a sequence of Unicode code points. *)
Abbreviation pystr := (list N).

(** The literal with the characters of [x]. *)
Definition py (x : string) : pystr :=
  map N_of_ascii (list_ascii_of_string x).

(** [len(s)] *)
Definition len (s : pystr) : Z := Z.of_nat (length s).

(** An index of a slice, as [PySlice_AdjustIndices] clamps it for a
    sequence of [n] items and step 1: a negative index counts from the
    end, and the result lies in [0..n]. *)
Definition slice_index (n : nat) (i : Z) : nat :=
  if i <? 0 then Z.to_nat (Z.max 0 (i + Z.of_nat n))
  else Z.to_nat (Z.min i (Z.of_nat n)).

(** [s[:stop]] *)
Definition slice_to (s : pystr) (stop : Z) : pystr :=
  take (slice_index (length s) stop) s.

(** [s[start:]] *)
Definition slice_from (s : pystr) (start : Z) : pystr :=
  drop (slice_index (length s) start) s.

(** [str(i)] for an integer, as an f-string formats it. *)
Definition str_of_int (i : Z) : pystr :=
  py (NilZero.string_of_int (Z.to_int i)).

(** [sep.join(items)] *)
Fixpoint join (sep : pystr) (items : list pystr) : pystr :=
  match items with
  | [] => []
  | [x] => x
  | x :: rest => x ++ sep ++ join sep rest
  end.

Definition ESC : N := 27%N.
Definition CR : N := 13%N.
Definition LF : N := 10%N.

(** ** Exceptions and results *)

(** [SystemExit] derives from [BaseException] only; everything else the
    program meets derives from [Exception] and carries its class name
    and its message. *)
Inductive exn :=
| SystemExit (code : Z)
| Exception (cls : pystr) (msg : pystr).

Definition is_Exception (e : exn) : bool :=
  match e with SystemExit _ => false | Exception _ _ => true end.

Definition is_class (cls : pystr) (e : exn) : bool :=
  match e with
  | SystemExit _ => false
  | Exception c _ => bool_decide (c = cls)
  end.

(** [str(e)] *)
Definition exn_str (e : exn) : pystr :=
  match e with
  | SystemExit code => str_of_int code
  | Exception _ msg => msg
  end.

(** The outcome of a computation: a value, a raised exception, or
    [Diverge] when the model ran out of fuel before the code returned. *)
Inductive result (A : Type) :=
| Ok (a : A)
| Raise (e : exn)
| Diverge.
Arguments Ok {A} a.
Arguments Raise {A} e.
Arguments Diverge {A}.

(** ** The world *)

(** Terminal attributes: an opaque attribute set, and whether
    [tty.setraw] has been applied to it. *)
Record termios := Termios { c_flags : N; c_raw : bool }.

(** What the program does to the terminal and to the process table. *)
Inductive event :=
| TcGetAttr
| SetRaw
| ReadChar (got : pystr)
| TcSetAttr (attrs : termios)
| Call (argv : list pystr) (env : gmap pystr pystr).

Record World := mkWorld {
  stdin : pystr;                    (* characters not read yet *)
  stdin_isatty : bool;              (* termios works on fd 0 *)
  tty : termios;                    (* current attributes of the terminal *)
  stdout : pystr;                   (* everything written so far *)
  environ : gmap pystr pystr;       (* os.environ *)
  trace : list event                (* oldest first *)
}.

Definition set_stdin (s : pystr) (w : World) : World :=
  mkWorld s (stdin_isatty w) (tty w) (stdout w) (environ w) (trace w).
Definition set_tty (a : termios) (w : World) : World :=
  mkWorld (stdin w) (stdin_isatty w) a (stdout w) (environ w) (trace w).
Definition set_stdout (s : pystr) (w : World) : World :=
  mkWorld (stdin w) (stdin_isatty w) (tty w) s (environ w) (trace w).
Definition log (e : event) (w : World) : World :=
  mkWorld (stdin w) (stdin_isatty w) (tty w) (stdout w) (environ w)
          (trace w ++ [e]).

(** ** The monad *)

Definition M (A : Type) : Type := World → result A * World.

Global Instance M_ret : MRet M := λ A a w, (Ok a, w).

Global Instance M_bind : MBind M := λ A B f m w,
  match m w with
  | (Ok a, w') => f a w'
  | (Raise e, w') => (Raise e, w')
  | (Diverge, w') => (Diverge, w')
  end.

Definition raise {A} (e : exn) : M A := λ w, (Raise e, w).

Definition diverge {A} : M A := λ w, (Diverge, w).

(** [try: body finally: fin].  The exception of [fin], if any, replaces
    the outcome of [body]. *)
Definition try_finally {A} (body : M A) (fin : M unit) : M A := λ w,
  match body w with
  | (Diverge, w') => (Diverge, w')
  | (r, w') =>
      match fin w' with
      | (Ok _, w'') => (r, w'')
      | (Raise e, w'') => (Raise e, w'')
      | (Diverge, w'') => (Diverge, w'')
      end
  end.

(** [try: body except <catches> as e: handler e] *)
Definition try_except {A} (body : M A) (catches : exn → bool)
    (handler : exn → M A) : M A := λ w,
  match body w with
  | (Raise e, w') => if catches e then handler e w' else (Raise e, w')
  | other => other
  end.

(** ** Streams and terminal *)

(** [sys.stdout.write(s)] *)
Definition write (s : pystr) : M unit := λ w,
  (Ok tt, set_stdout (stdout w ++ s) w).

(** [sys.stdout.flush()] *)
Definition flush : M unit := mret tt.

(** [print(s)] *)
Definition print (s : pystr) : M unit := write (s ++ [LF]).

Definition termios_error : exn :=
  Exception (py "termios.error") (py "(25, 'Inappropriate ioctl for device')").

(** [termios.tcgetattr(fd)] *)
Definition tcgetattr : M termios := λ w,
  if stdin_isatty w then (Ok (tty w), log TcGetAttr w)
  else (Raise termios_error, w).

(** [tty.setraw(fd)] *)
Definition setraw : M unit := λ w,
  if stdin_isatty w
  then (Ok tt, log SetRaw (set_tty (Termios (c_flags (tty w)) true) w))
  else (Raise termios_error, w).

(** [termios.tcsetattr(fd, termios.TCSADRAIN, attrs)] *)
Definition tcsetattr (attrs : termios) : M unit := λ w,
  if stdin_isatty w then (Ok tt, log (TcSetAttr attrs) (set_tty attrs w))
  else (Raise termios_error, w).

(** [sys.stdin.read(1)]: the next character, or the empty string at
    end of input. *)
Definition stdin_read1 : M pystr := λ w,
  let got := take 1 (stdin w) in
  (Ok got, log (ReadChar got) (set_stdin (drop 1 (stdin w)) w)).

(** [ord(c)] *)
Definition ord (c : pystr) : M N :=
  match c with
  | [x] => mret x
  | _ =>
      raise (Exception (py "TypeError")
               (py "ord() expected a character, but string of length "
                  ++ str_of_int (len c) ++ py " found"))
  end.

(** [AI.get_char] *)
Definition get_char : M pystr :=
  old_settings ← tcgetattr;
  try_finally
    (setraw;;
     ch ← stdin_read1;
     mret ch)
    (tcsetattr old_settings).

(** ** The editor *)

(** The two locals of [AI.run] that the loop updates. *)
Record EditState := mkEdit { input_text : pystr; position : Z }.

(** How one pass through the body of [while True] ends. *)
Inductive control :=
| Continue (st : EditState)     (* fall through to the next iteration *)
| Break (st : EditState)        (* [break] *)
| Return (v : Z).               (* [return v] *)

(** Lines 185-192: clear the line, show the text, place the cursor. *)
Definition repaint (st : EditState) : M unit :=
  write [CR];;
  write (ESC :: py "[K");;
  write (input_text st);;
  write [CR];;
  (if 0 <? position st
   then write (ESC :: py "[" ++ str_of_int (position st) ++ py "C")
   else mret tt);;
  flush.

(** Lines 194-226: read a key and apply it. *)
Definition dispatch (st : EditState) : M control :=
  let text := input_text st in
  let pos := position st in
  char ← get_char;
  c ← ord char;
  if (c =? 27)%N then
    char2 ← get_char;
    if bool_decide (char2 = py "[") then
      char3 ← get_char;
      if bool_decide (char3 = py "D") then
        mret (Continue (mkEdit text (Z.max 0 (pos - 1))))
      else if bool_decide (char3 = py "C") then
        mret (Continue (mkEdit text (Z.min (len text) (pos + 1))))
      else if bool_decide (char3 = py "H") then
        mret (Continue (mkEdit text 0))
      else if bool_decide (char3 = py "F") then
        mret (Continue (mkEdit text (len text)))
      else if bool_decide (char3 = py "3") then
        get_char;;
        if pos <? len text then
          mret (Continue
                  (mkEdit (slice_to text pos ++ slice_from text (pos + 1)) pos))
        else mret (Continue st)
      else mret (Continue st)
    else
      print (py (String "010" "Cancelled."));;
      mret (Return 0)
  else if (c =? 13)%N then
    mret (Break st)
  else if (c =? 127)%N || (c =? 8)%N then
    if 0 <? pos then
      mret (Continue
              (mkEdit (slice_to text (pos - 1) ++ slice_from text pos) (pos - 1)))
    else mret (Continue st)
  else if (32 <=? c)%N then
    mret (Continue
            (mkEdit (slice_to text pos ++ char ++ slice_from text pos) (pos + 1)))
  else mret (Continue st).

(** The body of [while True]. *)
Definition loop_body (st : EditState) : M control :=
  repaint st;; dispatch st.

(** How the loop is left. *)
Inductive loop_exit :=
| Broke (st : EditState)
| Returned (v : Z).

(** [while True: loop_body], for at most [fuel] iterations. *)
Fixpoint while_true (fuel : nat) (st : EditState) : M loop_exit :=
  match fuel with
  | O => diverge
  | S fuel' =>
      r ← loop_body st;
      match r with
      | Continue st' => while_true fuel' st'
      | Break st' => mret (Broke st')
      | Return v => mret (Returned v)
      end
  end.

(** Every iteration that falls through has read a character, so one
    more iteration than there are characters left always suffices (see
    [edit_loop_total]). *)
Definition edit_loop (st : EditState) : M loop_exit := λ w,
  while_true (S (length (stdin w))) st w.

(** ** [AI.run] and [main] *)

(** [self.os_type], as [detect_os] sets it. *)
Inductive os_type := macos | windows | linux.

(** [AI.get_prompt] *)
Definition get_prompt (os : os_type) (user_input : pystr) : pystr :=
  let os_prompt :=
    match os with
    | macos => py "Convert the following request into a macOS terminal command. Use macOS-compatible syntax (avoid bash-specific features like ${var,,} for lowercase conversion). "
    | windows => py "Convert the following request into a Windows CMD or PowerShell command."
    | linux => py "Convert the following request into a Linux shell command."
    end in
  let general_prompt := py "Return only the command to be executed, nothing else, no markdown, formatting or prose. Only add the lolcat command if something colorful, fun or lolcat directly is requested. If so, add the -f option to lolcat." in
  os_prompt ++ py " " ++ general_prompt ++ py " Request: " ++ user_input.

(** Lifts the answer of an external collaborator into the monad. *)
Definition external {A} (answer : exn + A) : M A :=
  match answer with
  | inl e => raise e
  | inr a => mret a
  end.

(** [os.environ.copy()]: a fresh dictionary with the same items. *)
Definition environ_copy : M (gmap pystr pystr) := λ w, (Ok (environ w), w).

Section Program.

(** [AI()]: the operating system detected, or the exception of
    [load_config]. *)
Variable new_AI : exn + os_type.

(** [AI.call_llm]: the text the configured provider answers to a
    prompt, or the exception of the request. *)
Variable call_llm : pystr → exn + pystr.

(** The child process of [subprocess.call(argv, env=env)]: its return
    code, or the exception of spawning it. *)
Variable child : list pystr → gmap pystr pystr → exn + Z.

(** [subprocess.call(argv, env=env)] *)
Definition subprocess_call (argv : list pystr) (env : gmap pystr pystr)
    : M Z := λ w,
  external (child argv env) (log (Call argv env) w).

(** Lines 231-244: what follows the loop after [break]. *)
Definition execute (command : pystr) (st : EditState) : M Z :=
  print [];;
  let input_text :=
    if bool_decide (input_text st = []) then command else input_text st in
  env ← environ_copy;
  let env := <[py "TERM" := py "xterm-256color"]> env in
  try_except
    (subprocess_call [py "bash"; py "-c"; input_text] env)
    (is_class (py "CalledProcessError"))
    (λ e,
       print (py "Command execution failed: " ++ exn_str e);;
       mret 1).

(** Lines 175-244: the editing session on the command the model
    proposed, and its execution. *)
Definition edit_and_execute (command : pystr) : M Z :=
  print (py (String "010"
               (append "Edit command and press Enter to execute, or ESC to cancel:"
                       (String "010" EmptyString))));;
  let input_text := command in
  let position := len input_text in
  old_settings ← tcgetattr;
  r ← try_finally
        (edit_loop (mkEdit input_text position))
        (tcsetattr old_settings);
  match r with
  | Returned v => mret v
  | Broke st => execute command st
  end.

(** [AI.run] *)
Definition run (self : os_type) (args : list pystr) : M Z :=
  let prompt := join (py " ") args in
  command ← external (call_llm (get_prompt self prompt));
  edit_and_execute command.

(** [sys.exit(code)] *)
Definition sys_exit {A} (code : Z) : M A := raise (SystemExit code).

(** [main], on [sys.argv].  It always ends in [SystemExit]. *)
Definition main (argv : list pystr) : M unit :=
  try_except
    (ai ← external new_AI;
     let args := drop 1 argv in
     (if bool_decide (args = [])
      then print (py "Usage: ai <your command description>");; sys_exit 1
      else mret tt);;
     status ← run ai args;
     sys_exit status)
    is_Exception
    (λ e,
       print (py "Error: " ++ exn_str e);;
       sys_exit 1).

(** The argument of [sys.exit] that ended the program. *)
Definition exit_status (r : result unit) : option Z :=
  match r with
  | Raise (SystemExit code) => Some code
  | _ => None
  end.

End Program.

(** ** Vocabulary of the specification *)

(** The bound on the cursor. *)
Definition inv (st : EditState) : Prop :=
  0 ≤ position st ≤ len (input_text st).

(** The session starts on the seed text with the cursor at its end. *)
Definition seed_state (seed : pystr) : EditState := mkEdit seed (len seed).

(** [editing seed w0 st w]: the loop, started on [seed] in the world
    [w0], is at the top of an iteration with the locals [st] in the
    world [w]. *)
Inductive editing (seed : pystr) (w0 : World) : EditState → World → Prop :=
| editing_start : editing seed w0 (seed_state seed) w0
| editing_step st w st' w' :
    editing seed w0 st w →
    loop_body st w = (Ok (Continue st'), w') →
    editing seed w0 st' w'.

(** What one repaint writes. *)
Definition frame (st : EditState) : pystr :=
  [CR] ++ (ESC :: py "[K") ++ input_text st ++ [CR] ++
  (if 0 <? position st
   then ESC :: py "[" ++ str_of_int (position st) ++ py "C"
   else []).

(** The world once the frame of [st] is on the terminal. *)
Definition painted (st : EditState) (w : World) : World :=
  set_stdout (stdout w ++ frame st) w.

(** The world once [get_char] has returned, on a terminal. *)
Definition after_read (w : World) : World :=
  mkWorld (drop 1 (stdin w)) (stdin_isatty w) (tty w) (stdout w) (environ w)
    (trace w ++
       [TcGetAttr; SetRaw; ReadChar (take 1 (stdin w)); TcSetAttr (tty w)]).

(** The world once [tcsetattr] has put the attributes [old] back. *)
Definition restored (old : termios) (w : World) : World :=
  log (TcSetAttr old) (set_tty old w).

(** The world at the top of the first iteration: the banner is printed
    and the attributes are saved. *)
Definition session_start (w : World) : World :=
  log TcGetAttr
    (set_stdout
       (stdout w ++
          py (String "010"
                (append "Edit command and press Enter to execute, or ESC to cancel:"
                        (String "010" EmptyString))) ++ [LF]) w).

Definition is_restore (e : event) : bool :=
  match e with TcSetAttr _ => true | _ => false end.
Definition is_setraw (e : event) : bool :=
  match e with SetRaw => true | _ => false end.
Definition is_read (e : event) : bool :=
  match e with ReadChar _ => true | _ => false end.
Definition is_call (e : event) : bool :=
  match e with Call _ _ => true | _ => false end.

(** How often the attributes were put back, raw mode was entered and a
    character was asked for; and the commands that were started. *)
Definition restores (tr : list event) : nat :=
  length (List.filter is_restore tr).
Definition raw_entries (tr : list event) : nat :=
  length (List.filter is_setraw tr).
Definition reads (tr : list event) : nat :=
  length (List.filter is_read tr).
Definition calls (tr : list event) : list event := List.filter is_call tr.

(** What the editor leaves as it found it between two of its worlds:
    the terminal is the same terminal with the same attributes, the
    environment is untouched, no command was started, every entry into
    raw mode was for one read and was released once, and input is only
    consumed. *)
Record steady (w w' : World) : Prop := mkSteady {
  steady_isatty : stdin_isatty w' = stdin_isatty w;
  steady_tty : tty w' = tty w;
  steady_environ : environ w' = environ w;
  steady_calls : calls (trace w') = calls (trace w);
  steady_restores :
    (restores (trace w') + raw_entries (trace w)
     = restores (trace w) + raw_entries (trace w'))%nat;
  steady_reads :
    (reads (trace w') + raw_entries (trace w)
     = reads (trace w) + raw_entries (trace w'))%nat;
  steady_stdin : (length (stdin w') ≤ length (stdin w))%nat
}.

(** A bare Escape: the Escape character, not followed by ['[']. *)
Definition bare_escape (inp : pystr) : Prop :=
  ∃ rest, inp = ESC :: rest ∧ head rest ≠ Some 91%N.

Definition type_error_empty : exn :=
  Exception (py "TypeError")
    (py "ord() expected a character, but string of length 0 found").

(** The world once the notice of cancellation is printed. *)
Definition cancelled (w : World) : World :=
  set_stdout (stdout w ++ py (String "010" "Cancelled.") ++ [LF]) w.

(** The rest of [edit_and_execute] from the top of an iteration with
    the locals [st]: the remaining passes of the loop inside
    [try ... finally], then what follows the loop. *)
Definition finish (child : list pystr → gmap pystr pystr → exn + Z)
    (command : pystr) (old_settings : termios) (st : EditState) : M Z :=
  r ← try_finally (edit_loop st) (tcsetattr old_settings);
  match r with
  | Returned v => mret v
  | Broke st' => execute child command st'
  end.

(** The command line and the environment of the child process for the
    text [final]. *)
Definition bash_argv (final : pystr) : list pystr :=
  [py "bash"; py "-c"; final].
Definition child_env (parent : gmap pystr pystr) : gmap pystr pystr :=
  <[py "TERM" := py "xterm-256color"]> parent.

(** ** Sample sessions *)

(** A terminal with the keys [keys] typed ahead, nothing written yet
    and one variable in the environment. *)
Definition sample_world (keys : pystr) : World :=
  mkWorld keys true (Termios 0 false) []
          {[ py "HOME" := py "/home/user" ]} [].

(** A model that always proposes [ls]. *)
Definition sample_llm : pystr → exn + pystr := λ _, inr (py "ls").

(** A child process that always succeeds. *)
Definition sample_child : list pystr → gmap pystr pystr → exn + Z :=
  λ _ _, inr 0.

Definition sample_argv : list pystr := [py "ai"; py "list"; py "files"].

(** ** The editor, key by key *)

(** A character that the loop inserts: 32 or above, and not DEL, which
    the Backspace branch takes first. *)
Definition printable (c : N) : bool := (32 <=? c)%N && negb (c =? 127)%N.

(** [passes st w st' w']: passes of the loop that fall through lead
    from the locals [st] in the world [w] to [st'] in [w']. *)
Inductive passes : EditState → World → EditState → World → Prop :=
| passes_none st w : passes st w st w
| passes_more st w st1 w1 st' w' :
    loop_body st w = (Ok (Continue st1), w1) →
    passes st1 w1 st' w' →
    passes st w st' w'.

(** ** Configuration *)

(** [c.isspace()], as [str.strip] tests each character. *)
Definition isspace (c : N) : bool :=
  ((9 <=? c) && (c <=? 13) || (28 <=? c) && (c <=? 32)
   || (c =? 133) || (c =? 160) || (c =? 5760)
   || (8192 <=? c) && (c <=? 8202)
   || (c =? 8232) || (c =? 8233) || (c =? 8239) || (c =? 8287)
   || (c =? 12288))%N.

(** [s.lstrip()] *)
Fixpoint lstrip (s : pystr) : pystr :=
  match s with
  | [] => []
  | c :: rest => if isspace c then lstrip rest else s
  end.

(** [s.rstrip()] *)
Fixpoint rstrip (s : pystr) : pystr :=
  match s with
  | [] => []
  | c :: rest =>
      match rstrip rest with
      | [] => if isspace c then [] else [c]
      | kept => c :: kept
      end
  end.

(** [s.strip()] *)
Definition strip (s : pystr) : pystr := rstrip (lstrip s).

(** [s.startswith(prefix)] *)
Fixpoint startswith (prefix s : pystr) : bool :=
  match prefix, s with
  | [], _ => true
  | _ :: _, [] => false
  | p :: prefix', c :: s' => (c =? p)%N && startswith prefix' s'
  end.

(** [s.split(sep, 1)] for a separator of one character. *)
Fixpoint split_once (sep : N) (s : pystr) : list pystr :=
  match s with
  | [] => [[]]
  | c :: rest =>
      if (c =? sep)%N then [[]; rest]
      else match split_once sep rest with
           | first :: more => (c :: first) :: more
           | [] => [[c]]
           end
  end.

(** [key, value = items] *)
Definition unpack2 (items : list pystr) : exn + (pystr * pystr) :=
  match items with
  | [key; value] => inr (key, value)
  | _ =>
      inl (Exception (py "ValueError")
             (if bool_decide (length items < 2)%nat
              then py "not enough values to unpack (expected 2, got "
                     ++ str_of_int (Z.of_nat (length items)) ++ py ")"
              else py "too many values to unpack (expected 2)"))
  end.

(** What iterating over the open file gives: its lines, and the
    exception that ends the iteration early, if any. *)
Record text_file := mkFile {
  file_lines : list pystr;
  file_error : option exn
}.

(** Lines 41-47: the body of [for line in f], on the dictionary so far. *)
Definition config_line (config : gmap pystr pystr) (line : pystr)
    : M (gmap pystr pystr) :=
  let line := strip line in
  if negb (bool_decide (line = [])) && negb (startswith (py "#") line) then
    try_except
      (kv ← external (unpack2 (split_once 61%N line));
       mret (<[strip kv.1 := strip kv.2]> config))
      (is_class (py "ValueError"))
      (λ _,
         print (py "Warning: Ignoring invalid config line: " ++ line);;
         mret config)
  else mret config.

(** [for line in f: ...] *)
Fixpoint config_lines (config : gmap pystr pystr) (lines : list pystr)
    : M (gmap pystr pystr) :=
  match lines with
  | [] => mret config
  | line :: rest =>
      config' ← config_line config line;
      config_lines config' rest
  end.

Definition required_keys : gset pystr :=
  {[ py "DEFAULT_PROVIDER"; py "DEFAULT_MODEL" ]}.

(** [AI.load_config], for the path of the file, the file when it
    exists, and the text Python prints for a set of strings. *)
Definition load_config (config_path : pystr) (file : option text_file)
    (format_set : gset pystr → pystr) : M (gmap pystr pystr) :=
  match file with
  | None =>
      raise (Exception (py "FileNotFoundError")
               (py "No config file found at " ++ config_path ++ [LF] ++
                py "Please copy .cmdline-ai-helper.sample to ~/.cmdline-ai-helper and edit it"))
  | Some f =>
      config ← config_lines ∅ (file_lines f);
      match file_error f with Some e => raise e | None => mret tt end;;
      let missing_keys := required_keys ∖ dom config in
      if bool_decide (missing_keys ≠ ∅) then
        raise (Exception (py "ValueError")
                 (py "Missing required config keys: "
                    ++ format_set missing_keys))
      else mret config
  end.

(** The second world differs from the first by text printed only. *)
Definition only_prints (w w' : World) : Prop :=
  stdin w' = stdin w ∧ stdin_isatty w' = stdin_isatty w ∧ tty w' = tty w ∧
  environ w' = environ w ∧ trace w' = trace w ∧
  ∃ out, stdout w' = stdout w ++ out.

(** ** Asking the model *)

(** [config[key]], for the keys the program uses: the text of the
    [KeyError] is the key between quotes. *)
Definition config_get (config : gmap pystr pystr) (key : pystr)
    : exn + pystr :=
  match config !! key with
  | Some value => inr value
  | None => inl (Exception (py "KeyError") (py "'" ++ key ++ py "'"))
  end.

(** [AI.call_llm], for the four methods it chooses from. *)
Definition call_llm {Answer : Type}
    (call_openai call_anthropic call_google call_ollama : pystr → exn + Answer)
    (config : gmap pystr pystr) (prompt : pystr) : exn + Answer :=
  match config_get config (py "DEFAULT_PROVIDER") with
  | inl e => inl e
  | inr provider =>
      if bool_decide (provider = py "openai") then call_openai prompt
      else if bool_decide (provider = py "anthropic") then call_anthropic prompt
      else if bool_decide (provider = py "google") then call_google prompt
      else if bool_decide (provider = py "ollama") then call_ollama prompt
      else inl (Exception (py "Exception")
                  (py "Unknown provider: " ++ provider))
  end.

(** What becomes of one request. *)
Inductive http_outcome :=
| NotSent (e : exn)
    (* [json.dumps], [encode] or [Request] raised, before the inner [try] *)
| TransportError (e : exn)
    (* [urlopen], [read] or [decode] raised something other than [HTTPError] *)
| HTTPError (body : exn + pystr)
    (* [urlopen] raised [HTTPError]; [e.read().decode('utf-8')] *)
| Responded (text : pystr).
    (* [response.read().decode('utf-8')] *)

(** [raise Exception(msg)] *)
Definition plain_exception (msg : pystr) : exn := Exception (py "Exception") msg.

(** [AI.make_request], for the transport and for [json.loads]. *)
Definition make_request {Url Headers Data Json : Type}
    (urlopen : Url → Headers → Data → http_outcome)
    (json_loads : pystr → exn + Json)
    (url : Url) (headers : Headers) (data : Data) : exn + Json :=
  let except_json (e : exn) : exn :=
    if is_class (py "JSONDecodeError") e
    then plain_exception (py "TransportError to parse API response")
    else e in
  let inner : exn + Json :=
    match urlopen url headers data with
    | NotSent e => inl e
    | TransportError e => inl (except_json e)
    | HTTPError (inl e) => inl e
    | HTTPError (inr error_message) =>
        inl (plain_exception (py "API request failed: " ++ error_message))
    | Responded text =>
        match json_loads text with
        | inl e => inl (except_json e)
        | inr value => inr value
        end
    end in
  match inner with
  | inl e =>
      if is_Exception e
      then inl (plain_exception (py "Request failed: " ++ exn_str e))
      else inl e
  | inr value => inr value
  end.

(** ** The providers *)

Local Set Warnings "-register-all".

(** What [json.loads] returns, and what [json.dumps] takes. *)
Inductive json :=
| JNull
| JBool (b : bool)
| JInt (i : Z)
| JFloat (literal : pystr)          (* the number, as it is written *)
| JStr (s : pystr)
| JList (items : list json)
| JDict (items : gmap pystr json).

(** A subscript: [value['key']] or [value[i]]. *)
Inductive subscript :=
| Key (k : pystr)
| Index (i : Z).

(** [value[sub]].  The text of the [TypeError] for a value that cannot
    be subscripted this way is the interpreter's, [type_error]. *)
Definition getitem (type_error : json → subscript → pystr)
    (value : json) (sub : subscript) : exn + json :=
  match value, sub with
  | JDict items, Key k =>
      match items !! k with
      | Some v => inr v
      | None => inl (Exception (py "KeyError") (py "'" ++ k ++ py "'"))
      end
  | JDict items, Index i =>
      inl (Exception (py "KeyError") (str_of_int i))
  | JList items, Index i =>
      let n := Z.of_nat (length items) in
      let j := if i <? 0 then i + n else i in
      match (if (0 <=? j) && (j <? n) then items !! Z.to_nat j else None) with
      | Some v => inr v
      | None => inl (Exception (py "IndexError") (py "list index out of range"))
      end
  | JStr s, Index i =>
      let n := Z.of_nat (length s) in
      let j := if i <? 0 then i + n else i in
      match (if (0 <=? j) && (j <? n) then s !! Z.to_nat j else None) with
      | Some c => inr (JStr [c])
      | None =>
          inl (Exception (py "IndexError") (py "string index out of range"))
      end
  | _, _ => inl (Exception (py "TypeError") (type_error value sub))
  end.

(** [value[s1][s2]...] *)
Fixpoint getpath (type_error : json → subscript → pystr)
    (value : json) (path : list subscript) : exn + json :=
  match path with
  | [] => inr value
  | sub :: rest =>
      match getitem type_error value sub with
      | inl e => inl e
      | inr v => getpath type_error v rest
      end
  end.

Notation "'try!' x := e 'in' k" :=
  (match e with inl err => inl err | inr x => k end)
  (at level 10, x name, e at level 100, k at level 200, only parsing).

Section Providers.

Variable type_error : json → subscript → pystr.
Variable urlopen : pystr → list (pystr * pystr) → json → http_outcome.
Variable json_loads : pystr → exn + json.
Variable config : gmap pystr pystr.

(** [AI.call_google] *)
Definition call_google (prompt : pystr) : exn + json :=
  try! endpoint := config_get config (py "GOOGLE_ENDPOINT") in
  try! api_key := config_get config (py "GOOGLE_API_KEY") in
  let url := endpoint ++ py "?key=" ++ api_key in
  let data :=
    JDict {[ py "contents" :=
               JList [JDict {[ py "parts" :=
                                 JList [JDict {[ py "text" := JStr prompt ]}] ]}];
             py "generationConfig" :=
               JDict {[ py "temperature" := JFloat (py "0.7");
                        py "topK" := JInt 1;
                        py "topP" := JFloat (py "0.8");
                        py "maxOutputTokens" := JInt 1024 ]} ]} in
  let headers := [(py "Content-Type", py "application/json")] in
  try! result := make_request urlopen json_loads url headers data in
  getpath type_error result
    [Key (py "candidates"); Index 0; Key (py "content"); Key (py "parts");
     Index 0; Key (py "text")].

(** [AI.call_openai] *)
Definition call_openai (prompt : pystr) : exn + json :=
  try! api_key := config_get config (py "OPENAI_API_KEY") in
  let headers :=
    [(py "Content-Type", py "application/json");
     (py "Authorization", py "Bearer " ++ api_key)] in
  try! model := config_get config (py "DEFAULT_MODEL") in
  let data :=
    JDict {[ py "model" := JStr model;
             py "messages" :=
               JList [JDict {[ py "role" := JStr (py "user");
                               py "content" := JStr prompt ]}];
             py "temperature" := JFloat (py "0.7") ]} in
  try! endpoint := config_get config (py "OPENAI_ENDPOINT") in
  try! result := make_request urlopen json_loads endpoint headers data in
  getpath type_error result
    [Key (py "choices"); Index 0; Key (py "message"); Key (py "content")].

(** [AI.call_anthropic] *)
Definition call_anthropic (prompt : pystr) : exn + json :=
  try! api_key := config_get config (py "ANTHROPIC_API_KEY") in
  let headers :=
    [(py "Content-Type", py "application/json");
     (py "x-api-key", api_key);
     (py "anthropic-version", py "2023-06-01")] in
  try! model := config_get config (py "DEFAULT_MODEL") in
  let data :=
    JDict {[ py "model" := JStr model;
             py "max_tokens" := JInt 1000;
             py "messages" :=
               JList [JDict {[ py "role" := JStr (py "user");
                               py "content" := JStr prompt ]}] ]} in
  try! endpoint := config_get config (py "ANTHROPIC_ENDPOINT") in
  try! result := make_request urlopen json_loads endpoint headers data in
  getpath type_error result [Key (py "content"); Index 0; Key (py "text")].

End Providers.

(** The first of [keys] that the configuration does not have. *)
Fixpoint first_missing (config : gmap pystr pystr) (keys : list pystr)
    : option pystr :=
  match keys with
  | [] => None
  | key :: rest =>
      match config !! key with
      | Some _ => first_missing config rest
      | None => Some key
      end
  end.

(** ** More sample data *)

(** Input that is not a terminal, with [keys] waiting in it. *)
Definition sample_pipe (keys : pystr) : World :=
  mkWorld keys false (Termios 0 false) []
          {[ py "HOME" := py "/home/user" ]} [].

(** A configuration file with a comment, a line without [=], a value
    that contains [=], and a key assigned twice. *)
Definition sample_config_lines : list pystr :=
  [py "# settings" ++ [LF];
   py "DEFAULT_PROVIDER = google" ++ [LF];
   [LF];
   py "bogus line" ++ [LF];
   py "DEFAULT_MODEL=gpt=4" ++ [LF];
   py "  DEFAULT_PROVIDER =  openai  "].

(** The answer of a provider in the OpenAI style. *)
Definition sample_answer : json :=
  JDict {[ py "choices" :=
             JList [JDict {[ py "message" :=
                               JDict {[ py "role" := JStr (py "assistant");
                                        py "content" := JStr (py "ls") ]} ]}] ]}.

(** A configuration for OpenAI. *)
Definition sample_config : gmap pystr pystr :=
  {[ py "DEFAULT_PROVIDER" := py "openai";
     py "DEFAULT_MODEL" := py "gpt-4";
     py "OPENAI_API_KEY" := py "secret";
     py "OPENAI_ENDPOINT" := py "https://example.org/v1" ]}.

(** A network that answers every request, and a parser that reads
    [sample_answer] from the answer. *)
Definition sample_urlopen : pystr → list (pystr * pystr) → json → http_outcome :=
  λ _ _ _, Responded (py "{...}").
Definition sample_json_loads : pystr → exn + json := λ _, inr sample_answer.
Definition sample_type_error : json → subscript → pystr :=
  λ _ _, py "object is not subscriptable".

(** * Properties *)

(** ** Slices and counters *)

Lemma slice_index_inside n i :
  0 ≤ i ≤ Z.of_nat n → slice_index n i = Z.to_nat i.
Proof. intros H. unfold slice_index. destruct (Z.ltb_spec i 0); lia. Qed.

Lemma restores_app a b : restores (a ++ b) = (restores a + restores b)%nat.
Proof. unfold restores. by rewrite List.filter_app, length_app. Qed.

Lemma raw_entries_app a b :
  raw_entries (a ++ b) = (raw_entries a + raw_entries b)%nat.
Proof. unfold raw_entries. by rewrite List.filter_app, length_app. Qed.

Lemma reads_app a b : reads (a ++ b) = (reads a + reads b)%nat.
Proof. unfold reads. by rewrite List.filter_app, length_app. Qed.

Lemma calls_app a b : calls (a ++ b) = calls a ++ calls b.
Proof. apply List.filter_app. Qed.

Lemma bool_decide_char (c : pystr) (x : N) :
  bool_decide (c = [x]) = match c with [y] => (y =? x)%N | _ => false end.
Proof.
  destruct c as [|y [|z c]]; try (apply bool_decide_eq_false; congruence).
  destruct (N.eqb_spec y x) as [->|Hn].
  - by apply bool_decide_eq_true.
  - apply bool_decide_eq_false. congruence.
Qed.

Lemma steady_refl w : steady w w.
Proof. by split. Qed.

Lemma steady_trans w1 w2 w3 : steady w1 w2 → steady w2 w3 → steady w1 w3.
Proof.
  intros [] []. split; try congruence; lia.
Qed.

(** ** One character *)

Lemma get_char_tty w :
  stdin_isatty w = true → get_char w = (Ok (take 1 (stdin w)), after_read w).
Proof.
  intros H. destruct w as [inp isatty t out env tr]. simpl in H. subst.
  unfold get_char, after_read, mbind, M_bind, try_finally, tcgetattr, setraw,
    stdin_read1, tcsetattr, log, set_tty, set_stdin. simpl.
  rewrite <- !app_assoc. reflexivity.
Qed.

Lemma get_char_notty w :
  stdin_isatty w = false → get_char w = (Raise termios_error, w).
Proof.
  intros H. unfold get_char, mbind, M_bind, tcgetattr. rewrite H. reflexivity.
Qed.

Lemma repaint_eq st w : repaint st w = (Ok tt, painted st w).
Proof.
  destruct w as [inp isatty t out env tr].
  unfold repaint, painted, frame, write, flush, mbind, M_bind, mret, M_ret,
    set_stdout.
  cbn [stdin stdin_isatty tty stdout environ trace].
  destruct (0 <? position st); cbn [stdin stdin_isatty tty stdout environ trace];
    repeat rewrite <- app_assoc; rewrite ?app_nil_r; reflexivity.
Qed.

Lemma loop_body_eq st w : loop_body st w = dispatch st (painted st w).
Proof.
  unfold loop_body. unfold mbind at 1. unfold M_bind.
  rewrite repaint_eq. reflexivity.
Qed.

Lemma painted_steady st w : steady w (painted st w).
Proof. by split. Qed.

(** ** One key *)

Ltac world_simpl :=
  cbn [stdin stdin_isatty tty stdout environ trace input_text position
       take drop ord mret M_ret fst snd after_read] in *;
  rewrite ?firstn_O, ?skipn_O in *;
  cbn [stdin stdin_isatty tty stdout environ trace input_text position
       take drop ord mret M_ret fst snd after_read] in *.

Ltac literals :=
  change (py "[") with [91%N] in *;
  change (py "D") with [68%N] in *;
  change (py "C") with [67%N] in *;
  change (py "H") with [72%N] in *;
  change (py "F") with [70%N] in *;
  change (py "3") with [51%N] in *.

(** Runs the next [get_char] of the computation in [H]. *)
Ltac read_char H :=
  unfold mbind at 1 in H; unfold M_bind at 1 in H;
  rewrite get_char_tty in H by done; world_simpl;
  rewrite ?bool_decide_char in H.

Ltac steady_tac :=
  split; world_simpl; simpl;
  rewrite ?restores_app, ?raw_entries_app, ?reads_app, ?calls_app, ?length_drop;
  unfold restores, raw_entries, reads, calls; simpl;
  rewrite ?app_nil_r; try done; try lia.

(** A key that ends the pass: the outcome is read off [H]. *)
Ltac leaf H :=
  injection H as <- <-; split; [steady_tac|];
  try done; try (split; [world_simpl; simpl; lia|]);
  try done; try (unfold inv, len; cbn [input_text position]; lia).

Ltac slices :=
  unfold slice_to, slice_from; rewrite !slice_index_inside by lia;
  rewrite ?length_app, ?length_take, ?length_drop; cbn [length].

(** Whatever the key, a pass through [dispatch] on a terminal keeps the
    world steady and returns; when it falls through it has consumed
    input and kept the cursor in bounds. *)
Lemma dispatch_spec st w r w' :
  stdin_isatty w = true →
  dispatch st w = (r, w') →
  steady w w' ∧
  match r with
  | Ok (Continue st') =>
      (length (stdin w') < length (stdin w))%nat ∧ (inv st → inv st')
  | Ok (Break st') => st' = st
  | Ok (Return v) => v = 0
  | Raise e => e = type_error_empty ∧ stdin w = []
  | Diverge => False
  end.
Proof.
  intros Htty H. destruct w as [inp isatty t out env tr].
  simpl in Htty. subst isatty. destruct st as [text pos].
  unfold dispatch in H. literals.
  read_char H. destruct inp as [|c1 inp]; world_simpl.
  { leaf H. }
  unfold mbind at 1 in H; unfold M_bind at 1 in H. world_simpl.
  destruct (c1 =? 27)%N eqn:E1.
  { read_char H. destruct inp as [|c2 inp]; world_simpl.
    { unfold mbind at 1 in H; unfold M_bind at 1 in H. leaf H. }
    destruct (c2 =? 91)%N eqn:E2.
    2:{ unfold mbind at 1 in H; unfold M_bind at 1 in H. leaf H. }
    read_char H. destruct inp as [|c3 inp]; world_simpl.
    { leaf H. }
    destruct (c3 =? 68)%N; [leaf H|].
    destruct (c3 =? 67)%N; [leaf H|].
    destruct (c3 =? 72)%N; [leaf H|].
    destruct (c3 =? 70)%N; [leaf H|].
    destruct (c3 =? 51)%N; [|leaf H].
    read_char H.
    destruct (Z.ltb_spec pos (len text)) as [E8|E8].
    2:{ destruct inp; leaf H. }
    destruct inp; leaf H; unfold inv, len in *; cbn [input_text position];
      intros Hi; slices; lia. }
  destruct (c1 =? 13)%N; [leaf H|].
  destruct ((c1 =? 127)%N || (c1 =? 8)%N).
  { destruct (Z.ltb_spec 0 pos) as [E11|E11]; [|leaf H].
    leaf H. unfold inv, len in *; cbn [input_text position].
    intros Hi; slices; lia. }
  destruct (32 <=? c1)%N; [|leaf H].
  leaf H. unfold inv, len in *; cbn [input_text position].
  intros Hi; slices; lia.
Qed.

Lemma loop_body_spec st w r w' :
  stdin_isatty w = true →
  loop_body st w = (r, w') →
  steady w w' ∧
  match r with
  | Ok (Continue st') =>
      (length (stdin w') < length (stdin w))%nat ∧ (inv st → inv st')
  | Ok (Break st') => st' = st
  | Ok (Return v) => v = 0
  | Raise e => e = type_error_empty ∧ stdin w = []
  | Diverge => False
  end.
Proof.
  intros Htty H. rewrite loop_body_eq in H.
  apply dispatch_spec in H as [Hs Hr]; [|done].
  split; [|exact Hr].
  eapply steady_trans; [apply (painted_steady st)|exact Hs].
Qed.

Lemma loop_body_notty st w :
  stdin_isatty w = false →
  loop_body st w = (Raise termios_error, painted st w).
Proof.
  intros H. rewrite loop_body_eq. unfold dispatch.
  unfold mbind at 1. unfold M_bind at 1. by rewrite get_char_notty.
Qed.

Lemma loop_body_continue_tty st w st' w' :
  loop_body st w = (Ok (Continue st'), w') → stdin_isatty w = true.
Proof.
  intros H. destruct (stdin_isatty w) eqn:E; [done|].
  rewrite loop_body_notty in H by done. discriminate.
Qed.

(** ** The loop *)

Lemma while_true_S fuel st w :
  while_true (S fuel) st w =
  match loop_body st w with
  | (Ok (Continue st'), w') => while_true fuel st' w'
  | (Ok (Break st'), w') => (Ok (Broke st'), w')
  | (Ok (Return v), w') => (Ok (Returned v), w')
  | (Raise e, w') => (Raise e, w')
  | (Diverge, w') => (Diverge, w')
  end.
Proof.
  simpl. unfold mbind, M_bind.
  destruct (loop_body st w) as [[[]|?|] ?]; reflexivity.
Qed.

(** Fuel left over is never missed. *)
Lemma while_true_more fuel : ∀ st w k,
  (while_true fuel st w).1 ≠ Diverge →
  while_true (fuel + k) st w = while_true fuel st w.
Proof.
  induction fuel as [|fuel IH]; intros st w k H; [by destruct H|].
  change (S fuel + k)%nat with (S (fuel + k)).
  rewrite while_true_S in H. rewrite !while_true_S.
  destruct (loop_body st w) as [[[st'|st'|v]|e|] w']; auto.
Qed.

(** On a terminal, more fuel than there are characters is enough. *)
Lemma while_true_enough fuel : ∀ st w,
  stdin_isatty w = true →
  (length (stdin w) < fuel)%nat →
  (while_true fuel st w).1 ≠ Diverge.
Proof.
  induction fuel as [|fuel IH]; intros st w Htty Hlen; [lia|].
  rewrite while_true_S.
  destruct (loop_body st w) as [r w'] eqn:E.
  apply loop_body_spec in E as [Hs Hr]; [|done].
  destruct r as [[st'|st'|v]|e|]; try done.
  apply IH; [|lia]. destruct Hs. congruence.
Qed.

Lemma while_true_steady fuel : ∀ st w r w',
  stdin_isatty w = true →
  while_true fuel st w = (r, w') →
  steady w w'.
Proof.
  induction fuel as [|fuel IH]; intros st w r w' Htty H.
  { injection H as <- <-. apply steady_refl. }
  rewrite while_true_S in H.
  destruct (loop_body st w) as [r1 w1] eqn:E.
  apply loop_body_spec in E as [Hs Hr]; [|done].
  destruct r1 as [[st'|st'|v]|e|]; try (injection H as <- <-; exact Hs).
  eapply steady_trans; [exact Hs|].
  eapply IH; [|exact H]. destruct Hs. congruence.
Qed.

(** The loop of the program always ends, with a value or an exception. *)
Lemma edit_loop_total st w : (edit_loop st w).1 ≠ Diverge.
Proof.
  unfold edit_loop. destruct (stdin_isatty w) eqn:E.
  - apply while_true_enough; [done|lia].
  - rewrite while_true_S, loop_body_notty by done. done.
Qed.

Lemma edit_loop_steady st w r w' :
  stdin_isatty w = true → edit_loop st w = (r, w') → steady w w'.
Proof. apply while_true_steady. Qed.

(** A pass that falls through leaves the rest of the loop to run. *)
Lemma edit_loop_step st w st' w' :
  loop_body st w = (Ok (Continue st'), w') →
  edit_loop st w = edit_loop st' w'.
Proof.
  intros H. pose proof (loop_body_continue_tty _ _ _ _ H) as Htty.
  pose proof (loop_body_spec _ _ _ _ Htty H) as [_ [Hlen _]].
  unfold edit_loop at 1. rewrite while_true_S, H.
  replace (length (stdin w))
    with (S (length (stdin w')) + (length (stdin w) - S (length (stdin w'))))%nat
    by lia.
  apply while_true_more, edit_loop_total.
Qed.

(** ** Points of a session *)

Lemma editing_edit_loop seed w0 st w :
  editing seed w0 st w → edit_loop (seed_state seed) w0 = edit_loop st w.
Proof.
  induction 1 as [|st w st' w' _ IH H]; [done|].
  rewrite IH. by apply edit_loop_step.
Qed.

Lemma editing_steady seed w0 st w :
  stdin_isatty w0 = true → editing seed w0 st w → steady w0 w.
Proof.
  intros Htty. induction 1 as [|st w st' w' _ IH H]; [apply steady_refl|].
  eapply steady_trans; [exact IH|].
  eapply loop_body_spec; [|exact H]. destruct IH. congruence.
Qed.

(** C1.  Whatever keys the loop has applied since it started on a seed
    text with the cursor at its end (characters inserted, Backspace,
    Delete, Left, Right, Home, End, or keys it ignores), the cursor is
    within the text: [0 <= position <= len(input_text)] at the top of
    every iteration. *)
Theorem cursor_within_text seed w0 st w :
  editing seed w0 st w → 0 ≤ position st ≤ len (input_text st).
Proof.
  induction 1 as [|st w st' w' _ IH H].
  - unfold seed_state. simpl. unfold len. lia.
  - pose proof (loop_body_continue_tty _ _ _ _ H) as Htty.
    pose proof (loop_body_spec _ _ _ _ Htty H) as [_ [_ Hinv]].
    by apply Hinv.
Qed.

(** ** Each key *)

(** Brings a world with known input to its fields. *)
Ltac open_world w Htty Hin :=
  destruct w as [inp isatty t out env tr];
  cbn [stdin stdin_isatty] in Htty, Hin; subst isatty; subst inp.

(** Runs the next [get_char] of the computation on the left of the goal. *)
Ltac run_read :=
  unfold mbind at 1; unfold M_bind at 1;
  rewrite get_char_tty by done;
  cbn [stdin stdin_isatty tty stdout environ trace input_text position
       take drop fst snd after_read painted set_stdout];
  rewrite ?firstn_O, ?skipn_O, ?bool_decide_char.

Ltac run_pure :=
  unfold mbind at 1; unfold M_bind at 1;
  cbn [ord mret M_ret].

Lemma loop_body_eof st w :
  stdin_isatty w = true → stdin w = [] →
  loop_body st w = (Raise type_error_empty, after_read (painted st w)).
Proof.
  intros Htty Hin. rewrite loop_body_eq. open_world w Htty Hin.
  unfold dispatch. run_read. run_pure. reflexivity.
Qed.

Lemma loop_body_enter st w rest :
  stdin_isatty w = true → stdin w = CR :: rest →
  loop_body st w = (Ok (Break st), after_read (painted st w)).
Proof.
  intros Htty Hin. rewrite loop_body_eq. open_world w Htty Hin.
  unfold dispatch. run_read. run_pure. reflexivity.
Qed.

Lemma loop_body_cancel st w :
  stdin_isatty w = true → bare_escape (stdin w) →
  loop_body st w =
  (Ok (Return 0), cancelled (after_read (after_read (painted st w)))).
Proof.
  intros Htty (rest & Hin & Hnext). rewrite loop_body_eq. open_world w Htty Hin.
  unfold dispatch. literals. run_read. run_pure. cbn [N.eqb ESC Pos.eqb].
  run_read. 
  destruct rest as [|c2 rest].
  - reflexivity.
  - cbn [take]. rewrite firstn_O. destruct (N.eqb_spec c2 91) as [->|Hne]; [by destruct Hnext|].
    reflexivity.
Qed.

Lemma loop_body_delete st w c4 rest :
  stdin_isatty w = true → stdin w = ESC :: 91%N :: 51%N :: c4 :: rest →
  loop_body st w =
  (Ok (Continue
         (if position st <? len (input_text st)
          then mkEdit (slice_to (input_text st) (position st) ++
                       slice_from (input_text st) (position st + 1))
                      (position st)
          else st)),
   after_read (after_read (after_read (after_read (painted st w))))).
Proof.
  intros Htty Hin. rewrite loop_body_eq. open_world w Htty Hin.
  unfold dispatch. literals. run_read. run_pure. cbn [N.eqb ESC Pos.eqb].
  run_read. cbn [N.eqb ESC Pos.eqb].  run_read. cbn [N.eqb ESC Pos.eqb]. run_read.
  destruct (position st <? len (input_text st)); reflexivity.
Qed.

Lemma loop_body_unknown_csi st w c3 rest :
  stdin_isatty w = true → stdin w = ESC :: 91%N :: c3 :: rest →
  c3 ∉ [68; 67; 72; 70; 51]%N →
  loop_body st w =
  (Ok (Continue st), after_read (after_read (after_read (painted st w)))).
Proof.
  intros Htty Hin Hc. rewrite loop_body_eq. open_world w Htty Hin.
  unfold dispatch. literals. run_read. run_pure. cbn [N.eqb ESC Pos.eqb].
  run_read. cbn [N.eqb ESC Pos.eqb].  run_read. 
  repeat match goal with
         | |- context [(c3 =? ?k)%N] =>
             destruct (N.eqb_spec c3 k) as [->|?];
             [exfalso; apply Hc; set_solver|]
         end.
  reflexivity.
Qed.

Lemma loop_body_control st w c rest :
  stdin_isatty w = true → stdin w = c :: rest →
  (c < 32)%N → c ∉ [13; 8; 27]%N →
  loop_body st w = (Ok (Continue st), after_read (painted st w)).
Proof.
  intros Htty Hin Hlt Hc. rewrite loop_body_eq. open_world w Htty Hin.
  unfold dispatch. literals. run_read. run_pure.
  destruct (N.eqb_spec c 27) as [->|?]; [exfalso; apply Hc; set_solver|].
  destruct (N.eqb_spec c 13) as [->|?]; [exfalso; apply Hc; set_solver|].
  destruct (N.eqb_spec c 127) as [->|?]; [lia|].
  destruct (N.eqb_spec c 8) as [->|?]; [exfalso; apply Hc; set_solver|].
  destruct (N.leb_spec 32 c); [lia|]. reflexivity.
Qed.

(** Evaluates the counters on the events that are known. *)
Ltac count_events :=
  unfold restores, raw_entries, reads in *;
  cbn [List.filter is_restore is_setraw is_read length] in *.

(** ** The session *)

Section Session.

Context (new_AI : exn + os_type).
Context (call_llm : pystr → exn + pystr).
Context (child : list pystr → gmap pystr pystr → exn + Z).

Lemma tcsetattr_tty old w :
  stdin_isatty w = true → tcsetattr old w = (Ok tt, restored old w).
Proof. intros H. unfold tcsetattr. by rewrite H. Qed.

Lemma edit_and_execute_start command w :
  stdin_isatty w = true →
  edit_and_execute child command w =
  finish child command (tty w) (seed_state command) (session_start w).
Proof.
  intros H. unfold edit_and_execute.
  unfold mbind at 1. unfold M_bind at 1. unfold print, write.
  unfold mbind at 1. unfold M_bind at 1. unfold tcgetattr.
  cbn [stdin_isatty set_stdout]. rewrite H. reflexivity.
Qed.

Lemma finish_editing command old w1 st w :
  editing command w1 st w →
  finish child command old (seed_state command) w1 =
  finish child command old st w.
Proof.
  intros H. unfold finish, mbind, M_bind, try_finally.
  by rewrite (editing_edit_loop _ _ _ _ H).
Qed.

(** From any point of the session, the program does what the rest of
    the session does. *)
Lemma edit_and_execute_from command w0 st w :
  stdin_isatty w0 = true →
  editing command (session_start w0) st w →
  edit_and_execute child command w0 = finish child command (tty w0) st w.
Proof.
  intros Htty H. rewrite edit_and_execute_start by done.
  by apply finish_editing.
Qed.

Lemma editing_session_steady command w0 st w :
  stdin_isatty w0 = true →
  editing command (session_start w0) st w →
  steady w0 w.
Proof.
  intros Htty H. apply editing_steady in H; [|done].
  eapply steady_trans; [|exact H]. unfold session_start, log, set_stdout. steady_tac.
Qed.

Lemma finish_loop_exit command old st w r w' :
  stdin_isatty w = true →
  loop_body st w = (r, w') →
  finish child command old st w =
  match r with
  | Ok (Continue st') => finish child command old st' w'
  | Ok (Break st') => execute child command st' (restored old w')
  | Ok (Return v) => (Ok v, restored old w')
  | Raise e => (Raise e, restored old w')
  | Diverge => (Diverge, w')
  end.
Proof.
  intros Htty H.
  pose proof (loop_body_spec _ _ _ _ Htty H) as [[Hty _ _ _ _ _ _] _].
  rewrite Htty in Hty.
  destruct r as [[st'|st'|v]|e|].
  - unfold finish, mbind, M_bind, try_finally.
    by rewrite (edit_loop_step _ _ _ _ H).
  - unfold finish, mbind, M_bind, try_finally, edit_loop.
    rewrite while_true_S, H, tcsetattr_tty by done. reflexivity.
  - unfold finish, mbind, M_bind, try_finally, edit_loop.
    rewrite while_true_S, H, tcsetattr_tty by done. reflexivity.
  - unfold finish, mbind, M_bind, try_finally, edit_loop.
    rewrite while_true_S, H, tcsetattr_tty by done. reflexivity.
  - unfold finish, mbind, M_bind, try_finally, edit_loop.
    rewrite while_true_S, H. reflexivity.
Qed.

(** What follows the loop: one command is started, on the text that
    was confirmed or on the seed when that text is empty, in a copy
    of the environment with [TERM] set. *)
Lemma execute_eq command st w :
  let final :=
    if bool_decide (input_text st = []) then command else input_text st in
  let argv := bash_argv final in
  let env := child_env (environ w) in
  let w1 := log (Call argv env) (set_stdout (stdout w ++ [LF]) w) in
  execute child command st w =
  match child argv env with
  | inr status => (Ok status, w1)
  | inl e =>
      if is_class (py "CalledProcessError") e
      then (Ok 1,
            set_stdout
              (stdout w1 ++ (py "Command execution failed: " ++ exn_str e)
                 ++ [LF]) w1)
      else (Raise e, w1)
  end.
Proof.
  intros final argv env w1. unfold execute.
  unfold mbind at 1. unfold M_bind at 1. unfold print, write.
  unfold mbind at 1. unfold M_bind at 1. unfold environ_copy.
  cbn [environ set_stdout].
  unfold try_except, subprocess_call, external.
  fold final. fold (bash_argv final). fold argv.
  fold (child_env (environ w)). fold env.
  destruct (child argv env) as [e|status]; [|reflexivity].
  unfold raise. destruct (is_class _ e); reflexivity.
Qed.

Lemma execute_trace command st w :
  trace (execute child command st w).2 =
  trace w ++
    [Call (bash_argv (if bool_decide (input_text st = [])
                      then command else input_text st))
          (child_env (environ w))].
Proof.
  rewrite execute_eq.
  destruct (child _ _) as [e|status]; [|reflexivity].
  destruct (is_class _ e); reflexivity.
Qed.

Lemma execute_steady command st w :
  let w' := (execute child command st w).2 in
  stdin_isatty w' = stdin_isatty w ∧ tty w' = tty w ∧
  environ w' = environ w ∧ stdin w' = stdin w ∧
  (execute child command st w).1 ≠ Diverge.
Proof.
  cbv zeta. rewrite execute_eq.
  destruct (child _ _) as [e|status]; [|done].
  destruct (is_class _ e); done.
Qed.

Lemma run_eq os args command w :
  call_llm (get_prompt os (join (py " ") args)) = inr command →
  run call_llm child os args w = edit_and_execute child command w.
Proof.
  intros H. unfold run. unfold mbind at 1. unfold M_bind at 1.
  by rewrite H.
Qed.

(** [main] turns the value of [run] into the exit status, and an
    exception of [run] into the status 1 after reporting it. *)
Lemma main_eq os argv w :
  new_AI = inr os →
  drop 1 argv ≠ [] →
  main new_AI call_llm child argv w =
  match run call_llm child os (drop 1 argv) w with
  | (Ok status, w') => (Raise (SystemExit status), w')
  | (Raise e, w') =>
      if is_Exception e
      then (Raise (SystemExit 1),
            set_stdout (stdout w' ++ (py "Error: " ++ exn_str e) ++ [LF]) w')
      else (Raise e, w')
  | (Diverge, w') => (Diverge, w')
  end.
Proof.
  intros Hai Hargs. unfold main, try_except.
  unfold mbind at 1. unfold M_bind at 1. rewrite Hai. cbn [external mret M_ret].
  rewrite bool_decide_eq_false_2 by done.
  unfold mbind at 1. unfold M_bind at 1. cbn [mret M_ret].
  unfold mbind at 1. unfold M_bind at 1.
  destruct (run call_llm child os (drop 1 argv) w) as [[status|e|] w'];
    [reflexivity| |reflexivity].
  destruct e; reflexivity.
Qed.

Lemma calls_restored old w : calls (trace (restored old w)) = calls (trace w).
Proof.
  unfold restored, log, set_tty. cbn [trace]. rewrite calls_app.
  apply app_nil_r.
Qed.

Lemma calls_after_read w : calls (trace (after_read w)) = calls (trace w).
Proof.
  unfold after_read. cbn [trace]. rewrite calls_app. apply app_nil_r.
Qed.

(** The session that ends on Enter. *)
Lemma session_confirmed command w0 st w rest :
  stdin_isatty w0 = true →
  editing command (session_start w0) st w →
  stdin w = CR :: rest →
  let final :=
    if bool_decide (input_text st = []) then command else input_text st in
  let argv := bash_argv final in
  let env := child_env (environ w0) in
  calls (trace (edit_and_execute child command w0).2)
    = calls (trace w0) ++ [Call argv env] ∧
  environ (edit_and_execute child command w0).2 = environ w0 ∧
  (edit_and_execute child command w0).1 =
    match child argv env with
    | inr status => Ok status
    | inl e => if is_class (py "CalledProcessError") e then Ok 1 else Raise e
    end.
Proof.
  intros Htty Hed Hin final argv env.
  pose proof (editing_session_steady _ _ _ _ Htty Hed) as Hs.
  assert (stdin_isatty w = true) as Htty' by (destruct Hs; congruence).
  rewrite (edit_and_execute_from _ _ _ _ Htty Hed).
  rewrite (finish_loop_exit _ _ _ _ _ _ Htty' (loop_body_enter _ _ _ Htty' Hin)).
  set (w1 := restored _ _).
  assert (environ w1 = environ w0) as Henv by (destruct Hs; done).
  assert (calls (trace w1) = calls (trace w0)) as Hcalls.
  { unfold w1. rewrite calls_restored, calls_after_read. by destruct Hs. }
  split; [|split].
  - rewrite execute_trace, calls_app, Hcalls, Henv. reflexivity.
  - destruct (execute_steady command st w1) as (_ & _ & -> & _). done.
  - rewrite execute_eq. fold final. fold argv. rewrite Henv. fold env.
    destruct (child argv env) as [e|status]; [|done].
    destruct (is_class _ e); done.
Qed.

(** The session that ends on a bare Escape. *)
Lemma session_cancelled command w0 st w :
  stdin_isatty w0 = true →
  editing command (session_start w0) st w →
  bare_escape (stdin w) →
  edit_and_execute child command w0 =
  (Ok 0,
   restored (tty w0) (cancelled (after_read (after_read (painted st w))))).
Proof.
  intros Htty Hed Hin.
  pose proof (editing_session_steady _ _ _ _ Htty Hed) as Hs.
  assert (stdin_isatty w = true) as Htty' by (destruct Hs; congruence).
  rewrite (edit_and_execute_from _ _ _ _ Htty Hed).
  by rewrite (finish_loop_exit _ _ _ _ _ _ Htty' (loop_body_cancel _ _ Htty' Hin)).
Qed.

(** The session that meets the end of input where a key starts. *)
Lemma session_end_of_input command w0 st w :
  stdin_isatty w0 = true →
  editing command (session_start w0) st w →
  stdin w = [] →
  edit_and_execute child command w0 =
  (Raise type_error_empty, restored (tty w0) (after_read (painted st w))).
Proof.
  intros Htty Hed Hin.
  pose proof (editing_session_steady _ _ _ _ Htty Hed) as Hs.
  assert (stdin_isatty w = true) as Htty' by (destruct Hs; congruence).
  rewrite (edit_and_execute_from _ _ _ _ Htty Hed).
  by rewrite (finish_loop_exit _ _ _ _ _ _ Htty' (loop_body_eof _ _ Htty' Hin)).
Qed.

Lemma finish_balance command old st w :
  stdin_isatty w = true →
  let w' := (finish child command old st w).2 in
  (restores (trace w') + raw_entries (trace w)
   = restores (trace w) + raw_entries (trace w') + 1)%nat ∧
  (reads (trace w') + raw_entries (trace w)
   = reads (trace w) + raw_entries (trace w'))%nat ∧
  tty w' = old ∧
  (finish child command old st w).1 ≠ Diverge.
Proof.
  intros Htty. cbv zeta. unfold finish, mbind, M_bind, try_finally.
  pose proof (edit_loop_total st w) as Htot.
  destruct (edit_loop st w) as [r1 w1] eqn:E.
  pose proof (edit_loop_steady _ _ _ _ Htty E) as [Hty _ _ _ Hres Hrd _].
  rewrite Htty in Hty.
  assert (trace (restored old w1) = trace w1 ++ [TcSetAttr old]) as Htr
    by done.
  destruct r1 as [[st'|v]|e|]; [| | |done];
    rewrite tcsetattr_tty by done; cbn [mret M_ret fst snd].
  - destruct (execute_steady command st' (restored old w1))
      as (_ & -> & _ & _ & Hnd).
    rewrite execute_trace, Htr, !restores_app, !raw_entries_app, !reads_app.
    count_events. repeat split; try lia; done.
  - rewrite Htr, !restores_app, !raw_entries_app, !reads_app.
    count_events. repeat split; try lia; done.
  - rewrite Htr, !restores_app, !raw_entries_app, !reads_app.
    count_events. repeat split; try lia; done.
Qed.

(** C2 (as the code has it).  On a terminal, every [get_char] of a
    session enters raw mode for one read and puts the attributes back
    once, and [run] puts the attributes it saved back once more when
    the loop is left, whether by Enter, by a bare Escape or by an
    exception: the session restores the attributes one time more
    often than it reads a character, it ends with a value or an
    exception, and the terminal has the attributes it had before. *)
Theorem attributes_restored_after_each_read_and_once_more command w0 :
  stdin_isatty w0 = true →
  let w' := (edit_and_execute child command w0).2 in
  (restores (trace w') + raw_entries (trace w0)
   = restores (trace w0) + raw_entries (trace w') + 1)%nat ∧
  (reads (trace w') + raw_entries (trace w0)
   = reads (trace w0) + raw_entries (trace w'))%nat ∧
  tty w' = tty w0 ∧
  (edit_and_execute child command w0).1 ≠ Diverge.
Proof.
  intros Htty. cbv zeta. rewrite edit_and_execute_start by done.
  assert (stdin_isatty (session_start w0) = true) as Htty' by done.
  destruct (finish_balance command (tty w0) (seed_state command)
              (session_start w0) Htty') as (Hres & Hrd & Ht & Hnd).
  assert (trace (session_start w0) = trace w0 ++ [TcGetAttr]) as Htr by done.
  rewrite Htr, !restores_app, !raw_entries_app, !reads_app in *.
  count_events. repeat split; try lia; done.
Qed.

(** C3 (as the code has it).  When the input ends where the loop
    awaits the first character of a key, [get_char] returns the empty
    string and [ord] raises [TypeError]: the attributes are put back,
    no command is started, and the exception leaves [run]; [main]
    reports it and exits with status 1.  The session does not end as
    a cancellation. *)
Theorem end_of_input_raises os argv command w0 st w :
  new_AI = inr os →
  drop 1 argv ≠ [] →
  call_llm (get_prompt os (join (py " ") (drop 1 argv))) = inr command →
  stdin_isatty w0 = true →
  editing command (session_start w0) st w →
  stdin w = [] →
  let r := run call_llm child os (drop 1 argv) w0 in
  r.1 = Raise type_error_empty ∧
  calls (trace r.2) = calls (trace w0) ∧
  tty r.2 = tty w0 ∧
  exit_status (main new_AI call_llm child argv w0).1 = Some 1.
Proof.
  intros Hai Hargs Hllm Htty Hed Hin. cbv zeta.
  rewrite (main_eq _ _ _ Hai Hargs), (run_eq _ _ _ _ Hllm).
  rewrite (session_end_of_input _ _ _ _ Htty Hed Hin).
  pose proof (editing_session_steady _ _ _ _ Htty Hed) as [_ _ _ Hc _ _ _].
  cbn [fst snd is_Exception type_error_empty exit_status].
  rewrite calls_restored, calls_after_read. done.
Qed.

(** C4.  When the loop is left by Enter, the text handed over for
    execution is the edited text, unless that text is empty: then it
    is the seed text the session started on. *)
Theorem enter_hands_over_text_or_seed command w0 st w rest :
  stdin_isatty w0 = true →
  editing command (session_start w0) st w →
  stdin w = CR :: rest →
  let started := calls (trace (edit_and_execute child command w0).2) in
  (input_text st = [] →
   started = calls (trace w0) ++
             [Call [py "bash"; py "-c"; command] (child_env (environ w0))]) ∧
  (input_text st ≠ [] →
   started = calls (trace w0) ++
             [Call [py "bash"; py "-c"; input_text st]
                   (child_env (environ w0))]).
Proof.
  intros Htty Hed Hin started.
  destruct (session_confirmed _ _ _ _ _ Htty Hed Hin) as (Hc & _ & _).
  unfold started. rewrite Hc. split; intros Ht.
  - by rewrite bool_decide_eq_true_2.
  - by rewrite bool_decide_eq_false_2.
Qed.

(** C5.  At any point of a session, a bare Escape (Escape followed by
    a character other than ['['], or by the end of input) leaves the
    loop by [return 0]: the notice of cancellation is printed, no
    command is started, so neither the seed nor the edited text is
    handed over, and the attributes are put back. *)
Theorem bare_escape_cancels command w0 st w :
  stdin_isatty w0 = true →
  editing command (session_start w0) st w →
  bare_escape (stdin w) →
  let r := edit_and_execute child command w0 in
  (loop_body st w).1 = Ok (Return 0) ∧
  r.1 = Ok 0 ∧
  calls (trace r.2) = calls (trace w0) ∧
  stdout r.2 = stdout w ++ frame st ++ py (String "010" "Cancelled.") ++ [LF] ∧
  tty r.2 = tty w0.
Proof.
  intros Htty Hed Hin. cbv zeta.
  pose proof (editing_session_steady _ _ _ _ Htty Hed) as [Hty _ _ Hc _ _ _].
  rewrite Htty in Hty.
  rewrite (loop_body_cancel _ _ Hty Hin).
  rewrite (session_cancelled _ _ _ _ Htty Hed Hin).
  cbn [fst snd]. rewrite calls_restored.
  unfold cancelled at 1, set_stdout. cbn [trace].
  rewrite !calls_after_read. repeat split; [done|].
  unfold restored, log, set_tty, cancelled, set_stdout, painted.
  cbn [stdout after_read set_stdout]. by rewrite <- app_assoc.
Qed.

(** C9.  A session that ends on a bare Escape makes [run] return 0,
    so [main] exits with status 0: the same status as a session that
    ends on Enter and whose command returns 0. *)
Theorem cancelled_session_exits_with_zero os argv command w0 st w :
  new_AI = inr os →
  drop 1 argv ≠ [] →
  call_llm (get_prompt os (join (py " ") (drop 1 argv))) = inr command →
  stdin_isatty w0 = true →
  editing command (session_start w0) st w →
  bare_escape (stdin w) →
  (run call_llm child os (drop 1 argv) w0).1 = Ok 0 ∧
  exit_status (main new_AI call_llm child argv w0).1 = Some 0 ∧
  (∀ v0 st1 v rest,
     stdin_isatty v0 = true →
     editing command (session_start v0) st1 v →
     stdin v = CR :: rest →
     child (bash_argv (if bool_decide (input_text st1 = [])
                       then command else input_text st1))
           (child_env (environ v0)) = inr 0 →
     exit_status (main new_AI call_llm child argv v0).1
     = exit_status (main new_AI call_llm child argv w0).1).
Proof.
  intros Hai Hargs Hllm Htty Hed Hin.
  assert (exit_status (main new_AI call_llm child argv w0).1 = Some 0) as H0.
  { rewrite (main_eq _ _ _ Hai Hargs), (run_eq _ _ _ _ Hllm).
    by rewrite (session_cancelled _ _ _ _ Htty Hed Hin). }
  split; [|split; [exact H0|]].
  - rewrite (run_eq _ _ _ _ Hllm).
    by rewrite (session_cancelled _ _ _ _ Htty Hed Hin).
  - intros v0 st1 v rest Htty1 Hed1 Hin1 Hchild. rewrite H0.
    rewrite (main_eq _ _ _ Hai Hargs), (run_eq _ _ _ _ Hllm).
    destruct (session_confirmed _ _ _ _ _ Htty1 Hed1 Hin1) as (_ & _ & Hr).
    rewrite Hchild in Hr.
    destruct (edit_and_execute child command v0) as [r v'].
    simpl in Hr. by subst r.
Qed.

(** C10.  The text that was confirmed is run as [bash -c <text>], in
    an environment that is the environment of the parent with [TERM]
    set to [xterm-256color]: every other variable is passed on as it
    is, and the environment of the parent itself is not changed. *)
Theorem confirmed_text_runs_under_bash command w0 st w rest :
  stdin_isatty w0 = true →
  editing command (session_start w0) st w →
  stdin w = CR :: rest →
  let final :=
    if bool_decide (input_text st = []) then command else input_text st in
  ∃ env,
    calls (trace (edit_and_execute child command w0).2)
      = calls (trace w0) ++ [Call [py "bash"; py "-c"; final] env] ∧
    env !! py "TERM" = Some (py "xterm-256color") ∧
    (∀ name, name ≠ py "TERM" → env !! name = environ w0 !! name) ∧
    environ (edit_and_execute child command w0).2 = environ w0.
Proof.
  intros Htty Hed Hin final.
  destruct (session_confirmed _ _ _ _ _ Htty Hed Hin) as (Hc & Henv & _).
  exists (child_env (environ w0)). repeat split; [exact Hc| | |exact Henv].
  - apply lookup_insert_eq.
  - intros name Hne. by apply lookup_insert_ne.
Qed.

End Session.

(** ** Keys and frames *)

Lemma stdin_after_read w : stdin (after_read w) = drop 1 (stdin w).
Proof. reflexivity. Qed.

(** C6.  [ESC [ 3 ~] is taken in one pass of the loop, which reads
    exactly these four characters; the pass removes the character
    under the cursor when there is one, leaves the text alone
    otherwise, and does not move the cursor. *)
Theorem delete_sequence_removes_character_at_cursor st w rest :
  stdin_isatty w = true →
  0 ≤ position st ≤ len (input_text st) →
  stdin w = ESC :: 91%N :: 51%N :: 126%N :: rest →
  let text := input_text st in
  let pos := Z.to_nat (position st) in
  ∃ w',
    loop_body st w =
      (Ok (Continue
             (mkEdit (if position st <? len text
                      then take pos text ++ drop (S pos) text
                      else text)
                     (position st))), w') ∧
    stdin w' = rest ∧
    List.filter is_read (trace w') =
      List.filter is_read (trace w) ++
        [ReadChar [ESC]; ReadChar [91%N]; ReadChar [51%N]; ReadChar [126%N]].
Proof.
  intros Htty Hinv Hin text pos.
  eexists. split; [|split].
  - rewrite (loop_body_delete _ _ _ _ Htty Hin). do 2 f_equal. f_equal.
    fold text. destruct (Z.ltb_spec (position st) (len text)) as [Hlt|Hge].
    + unfold len in *. unfold slice_to, slice_from.
      rewrite !slice_index_inside by (fold text; lia).
      replace (Z.to_nat (position st + 1)) with (S pos) by lia. done.
    + by destruct st.
  - unfold painted, set_stdout. rewrite !stdin_after_read. cbn [stdin].
    by rewrite Hin.
  - unfold painted, set_stdout, after_read. cbn [stdin trace].
    rewrite Hin. cbn [take drop]. rewrite !firstn_O.
    rewrite <- !app_assoc, List.filter_app. reflexivity.
Qed.

(** C7.  A repaint writes, in this order: a carriage return, the
    sequence [ESC [ K] that clears to the end of the line, the whole
    text, a carriage return and, only when the cursor is at a column
    greater than 0, the sequence [ESC [ <cursor> C] with the cursor in
    decimal.  Every pass of the loop starts with it. *)
Theorem repaint_writes_line_then_places_cursor st w :
  let shown :=
    [CR] ++ [ESC; 91%N; 75%N] ++ input_text st ++ [CR] ++
    (if 0 <? position st
     then [ESC; 91%N] ++ str_of_int (position st) ++ [67%N]
     else []) in
  repaint st w = (Ok tt, set_stdout (stdout w ++ shown) w) ∧
  loop_body st w = dispatch st (set_stdout (stdout w ++ shown) w).
Proof.
  intros shown. split.
  - apply repaint_eq.
  - apply loop_body_eq.
Qed.

(** C8.  Input that is not recognised changes nothing and the loop goes
    on: after [ESC [], a third character other than [D], [C], [H], [F]
    and [3], and, alone, a character below 32 other than Enter (13),
    Backspace (8) and Escape (27), leave the text and the cursor as
    they are and the loop at the top of its next pass. *)
Theorem unrecognized_input_is_ignored st w :
  stdin_isatty w = true →
  (∀ c3 rest,
     stdin w = ESC :: 91%N :: c3 :: rest →
     c3 ∉ [68; 67; 72; 70; 51]%N →
     ∃ w', loop_body st w = (Ok (Continue st), w') ∧ stdin w' = rest ∧
           edit_loop st w = edit_loop st w') ∧
  (∀ c rest,
     stdin w = c :: rest →
     (c < 32)%N → c ∉ [13; 8; 27]%N →
     ∃ w', loop_body st w = (Ok (Continue st), w') ∧ stdin w' = rest ∧
           edit_loop st w = edit_loop st w').
Proof.
  intros Htty. split.
  - intros c3 rest Hin Hc.
    pose proof (loop_body_unknown_csi st w c3 rest Htty Hin Hc) as H.
    eexists. split; [exact H|split; [|by apply edit_loop_step]].
    unfold painted, set_stdout. rewrite !stdin_after_read. cbn [stdin].
    by rewrite Hin.
  - intros c rest Hin Hlt Hc.
    pose proof (loop_body_control st w c rest Htty Hin Hlt Hc) as H.
    eexists. split; [exact H|split; [|by apply edit_loop_step]].
    unfold painted, set_stdout. rewrite !stdin_after_read. cbn [stdin].
    by rewrite Hin.
Qed.

(** ** The properties on sample sessions *)

(** A pass that is seen to fall through, by running it. *)
Lemma editing_next seed w0 st w st' :
  editing seed w0 st w →
  (loop_body st w).1 = Ok (Continue st') →
  editing seed w0 st' (loop_body st w).2.
Proof.
  intros Hed H. eapply editing_step; [exact Hed|].
  destruct (loop_body st w) as [r w']. simpl in H. by subst r.
Qed.

(** Left on [ls]: the cursor is at 1. *)
Lemma cursor_within_text_witness :
  0 ≤ position (mkEdit (py "ls") 1) ≤ len (input_text (mkEdit (py "ls") 1)).
Proof.
  apply (cursor_within_text (py "ls") (sample_world [ESC; 91; 68; CR]%N)
           (mkEdit (py "ls") 1)
           (loop_body (seed_state (py "ls"))
              (sample_world [ESC; 91; 68; CR]%N)).2).
  apply editing_next; [apply editing_start|].
  vm_compute. reflexivity.
Defined.

(** Enter at once: one read, two restorations. *)
Lemma attributes_restored_twice_on_enter :
  restores
    (trace (edit_and_execute sample_child (py "ls") (sample_world [CR])).2)
  = 2%nat ∧
  restores
    (trace (edit_and_execute sample_child (py "ls") (sample_world [CR])).2)
  ≠ 1%nat.
Proof. split; [vm_compute; reflexivity|vm_compute; discriminate]. Qed.

Lemma attributes_restored_after_each_read_and_once_more_witness :
  let w0 := sample_world [ESC; 91; 68; 120; CR]%N in
  let w' := (edit_and_execute sample_child (py "ls") w0).2 in
  (restores (trace w') + raw_entries (trace w0)
   = restores (trace w0) + raw_entries (trace w') + 1)%nat ∧
  (reads (trace w') + raw_entries (trace w0)
   = reads (trace w0) + raw_entries (trace w'))%nat ∧
  tty w' = tty w0 ∧
  (edit_and_execute sample_child (py "ls") w0).1 ≠ Diverge.
Proof.
  apply (attributes_restored_after_each_read_and_once_more sample_child
           (py "ls") (sample_world [ESC; 91; 68; 120; CR]%N)).
  reflexivity.
Defined.

(** End of input at once: [run] raises, it does not return 0 as it does
    on a bare Escape, and [main] exits with 1. *)
Lemma end_of_input_is_not_cancel :
  (run sample_llm sample_child linux (drop 1 sample_argv) (sample_world [])).1
  = Raise type_error_empty ∧
  (run sample_llm sample_child linux (drop 1 sample_argv)
     (sample_world [ESC; 120%N])).1
  = Ok 0 ∧
  exit_status
    (main (inr linux) sample_llm sample_child sample_argv (sample_world [])).1
  = Some 1.
Proof. repeat split; vm_compute; reflexivity. Qed.

Lemma end_of_input_raises_witness :
  let r := run sample_llm sample_child linux (drop 1 sample_argv)
             (sample_world [97%N]) in
  r.1 = Raise type_error_empty ∧
  calls (trace r.2) = calls (trace (sample_world [97%N])) ∧
  tty r.2 = tty (sample_world [97%N]) ∧
  exit_status
    (main (inr linux) sample_llm sample_child sample_argv
       (sample_world [97%N])).1 = Some 1.
Proof.
  apply (end_of_input_raises (inr linux) sample_llm sample_child linux
           sample_argv (py "ls") (sample_world [97%N])
           (mkEdit (py "lsa") 3)
           (loop_body (seed_state (py "ls"))
              (session_start (sample_world [97%N]))).2).
  - reflexivity.
  - discriminate.
  - reflexivity.
  - reflexivity.
  - apply editing_next; [apply editing_start|]. vm_compute. reflexivity.
  - vm_compute. reflexivity.
Defined.

(** [ls] erased by two Backspaces, then Enter: [ls] is run. *)
Lemma enter_hands_over_text_or_seed_witness :
  let w0 := sample_world [8; 8; CR]%N in
  let started := calls (trace (edit_and_execute sample_child (py "ls") w0).2) in
  started = calls (trace w0) ++
            [Call [py "bash"; py "-c"; py "ls"] (child_env (environ w0))].
Proof.
  set (w0 := sample_world [8; 8; CR]%N).
  set (w1 := (loop_body (seed_state (py "ls")) (session_start w0)).2).
  set (w2 := (loop_body (mkEdit (py "l") 1) w1).2).
  refine (proj1 (enter_hands_over_text_or_seed sample_child (py "ls") w0
                   (mkEdit [] 0) w2 [] _ _ _) _).
  - reflexivity.
  - apply editing_next; [apply editing_next; [apply editing_start|]|];
      vm_compute; reflexivity.
  - vm_compute. reflexivity.
  - reflexivity.
Defined.

(** [a], then Escape followed by [x]: cancelled, nothing is run. *)
Lemma bare_escape_cancels_witness :
  let w0 := sample_world [97; ESC; 120]%N in
  let st := mkEdit (py "lsa") 3 in
  let w := (loop_body (seed_state (py "ls")) (session_start w0)).2 in
  let r := edit_and_execute sample_child (py "ls") w0 in
  (loop_body st w).1 = Ok (Return 0) ∧
  r.1 = Ok 0 ∧
  calls (trace r.2) = calls (trace w0) ∧
  stdout r.2 = stdout w ++ frame st ++ py (String "010" "Cancelled.") ++ [LF] ∧
  tty r.2 = tty w0.
Proof.
  apply (bare_escape_cancels sample_child (py "ls")
           (sample_world [97; ESC; 120]%N)).
  - reflexivity.
  - apply editing_next; [apply editing_start|]. vm_compute. reflexivity.
  - exists [120%N]. split; [vm_compute; reflexivity|discriminate].
Defined.

(** [ls -la] with the cursor at 3: Delete gives [ls la]. *)
Lemma delete_sequence_removes_character_at_cursor_witness :
  let st := mkEdit (py "ls -la") 3 in
  let w := sample_world [ESC; 91; 51; 126; CR]%N in
  let text := input_text st in
  let pos := Z.to_nat (position st) in
  ∃ w',
    loop_body st w =
      (Ok (Continue
             (mkEdit (if position st <? len text
                      then take pos text ++ drop (S pos) text
                      else text)
                     (position st))), w') ∧
    stdin w' = [CR] ∧
    List.filter is_read (trace w') =
      List.filter is_read (trace w) ++
        [ReadChar [ESC]; ReadChar [91%N]; ReadChar [51%N]; ReadChar [126%N]].
Proof.
  apply (delete_sequence_removes_character_at_cursor
           (mkEdit (py "ls -la") 3) (sample_world [ESC; 91; 51; 126; CR]%N)).
  - reflexivity.
  - vm_compute. split; discriminate.
  - reflexivity.
Defined.

(** Up ([ESC [ A]) and Control-A change nothing. *)
Lemma unrecognized_input_is_ignored_witness :
  let st := mkEdit (py "ls") 1 in
  (∃ w', loop_body st (sample_world [ESC; 91; 65; CR]%N)
         = (Ok (Continue st), w') ∧ stdin w' = [CR] ∧
         edit_loop st (sample_world [ESC; 91; 65; CR]%N) = edit_loop st w') ∧
  (∃ w', loop_body st (sample_world [1; CR]%N)
         = (Ok (Continue st), w') ∧ stdin w' = [CR] ∧
         edit_loop st (sample_world [1; CR]%N) = edit_loop st w').
Proof.
  split.
  - apply (proj1 (unrecognized_input_is_ignored (mkEdit (py "ls") 1)
                    (sample_world [ESC; 91; 65; CR]%N) eq_refl) 65%N [CR]).
    + reflexivity.
    + compute_done.
  - apply (proj2 (unrecognized_input_is_ignored (mkEdit (py "ls") 1)
                    (sample_world [1; CR]%N) eq_refl) 1%N [CR]).
    + reflexivity.
    + reflexivity.
    + compute_done.
Defined.

(** Escape at once exits with 0, as Enter at once does when the command
    succeeds. *)
Lemma cancelled_session_exits_with_zero_witness :
  let w0 := sample_world [ESC; 120]%N in
  (run sample_llm sample_child linux (drop 1 sample_argv) w0).1 = Ok 0 ∧
  exit_status
    (main (inr linux) sample_llm sample_child sample_argv w0).1 = Some 0 ∧
  exit_status
    (main (inr linux) sample_llm sample_child sample_argv (sample_world [CR])).1
  = exit_status (main (inr linux) sample_llm sample_child sample_argv w0).1.
Proof.
  set (w0 := sample_world [ESC; 120]%N).
  destruct (cancelled_session_exits_with_zero (inr linux) sample_llm
              sample_child linux sample_argv (py "ls") w0
              (seed_state (py "ls")) (session_start w0))
    as (H1 & H2 & H3).
  - reflexivity.
  - discriminate.
  - reflexivity.
  - reflexivity.
  - apply editing_start.
  - exists [120%N]. split; [reflexivity|discriminate].
  - split; [exact H1|split; [exact H2|]].
    apply (H3 (sample_world [CR]) (seed_state (py "ls"))
              (session_start (sample_world [CR])) []).
    + reflexivity.
    + apply editing_start.
    + reflexivity.
    + reflexivity.
Defined.

(** Enter at once: [bash -c ls] with [TERM] set and [HOME] passed on. *)
Lemma confirmed_text_runs_under_bash_witness :
  let w0 := sample_world [CR] in
  let final :=
    if bool_decide (input_text (seed_state (py "ls")) = [])
    then py "ls" else input_text (seed_state (py "ls")) in
  ∃ env,
    calls (trace (edit_and_execute sample_child (py "ls") w0).2)
      = calls (trace w0) ++ [Call [py "bash"; py "-c"; final] env] ∧
    env !! py "TERM" = Some (py "xterm-256color") ∧
    (∀ name, name ≠ py "TERM" → env !! name = environ w0 !! name) ∧
    environ (edit_and_execute sample_child (py "ls") w0).2 = environ w0.
Proof.
  apply (confirmed_text_runs_under_bash sample_child (py "ls")
           (sample_world [CR]) (seed_state (py "ls"))
           (session_start (sample_world [CR])) []).
  - reflexivity.
  - apply editing_start.
  - reflexivity.
Defined.

(** The sessions the specification gives as examples. *)
Example left_left_left_delete :
  (edit_loop (seed_state (py "ls -la"))
     (sample_world [ESC; 91; 68; ESC; 91; 68; ESC; 91; 68;
                    ESC; 91; 51; 126; CR]%N)).1
  = Ok (Broke (mkEdit (py "ls la") 3)).
Proof. vm_compute. reflexivity. Qed.

Example home_then_insert :
  (edit_loop (seed_state (py "echo hi"))
     (sample_world [ESC; 91; 72; 88; CR]%N)).1
  = Ok (Broke (mkEdit (py "Xecho hi") 1)).
Proof. vm_compute. reflexivity. Qed.

Example backspace_at_start_changes_nothing :
  (loop_body (mkEdit (py "ls") 0) (sample_world [127]%N)).1
  = Ok (Continue (mkEdit (py "ls") 0)).
Proof. vm_compute. reflexivity. Qed.

Example delete_at_end_changes_nothing :
  (loop_body (mkEdit (py "ls") 2) (sample_world [ESC; 91; 51; 126]%N)).1
  = Ok (Continue (mkEdit (py "ls") 2)).
Proof. vm_compute. reflexivity. Qed.

(** * Further properties *)

(** ** The editor, key by key *)

Lemma loop_body_insert st w c rest :
  stdin_isatty w = true → stdin w = c :: rest → printable c = true →
  loop_body st w =
  (Ok (Continue
         (mkEdit (slice_to (input_text st) (position st) ++ [c] ++
                  slice_from (input_text st) (position st))
                 (position st + 1))),
   after_read (painted st w)).
Proof.
  intros Htty Hin Hc. apply andb_true_iff in Hc as [Hge Hdel].
  apply negb_true_iff in Hdel.
  rewrite loop_body_eq. open_world w Htty Hin.
  unfold dispatch. literals. run_read. run_pure.
  destruct (N.eqb_spec c 27) as [->|?]; [done|].
  destruct (N.eqb_spec c 13) as [->|?]; [done|].
  rewrite Hdel.
  destruct (N.eqb_spec c 8) as [->|?]; [done|].
  cbn [orb]. rewrite Hge. reflexivity.
Qed.

Lemma loop_body_backspace st w c rest :
  stdin_isatty w = true → stdin w = c :: rest → c = 127%N ∨ c = 8%N →
  loop_body st w =
  (Ok (Continue
         (if 0 <? position st
          then mkEdit (slice_to (input_text st) (position st - 1) ++
                       slice_from (input_text st) (position st))
                      (position st - 1)
          else st)),
   after_read (painted st w)).
Proof.
  intros Htty Hin Hc. rewrite loop_body_eq. open_world w Htty Hin.
  unfold dispatch. literals. run_read. run_pure.
  destruct Hc as [-> | ->]; cbn [N.eqb Pos.eqb orb];
    destruct (0 <? position st); reflexivity.
Qed.

Lemma loop_body_move st w c3 rest :
  stdin_isatty w = true → stdin w = ESC :: 91%N :: c3 :: rest →
  c3 ∈ [68; 67; 72; 70]%N →
  loop_body st w =
  (Ok (Continue
         (mkEdit (input_text st)
            (if (c3 =? 68)%N then Z.max 0 (position st - 1)
             else if (c3 =? 67)%N
                  then Z.min (len (input_text st)) (position st + 1)
                  else if (c3 =? 72)%N then 0 else len (input_text st)))),
   after_read (after_read (after_read (painted st w)))).
Proof.
  intros Htty Hin Hc. rewrite loop_body_eq. open_world w Htty Hin.
  unfold dispatch. literals. run_read. run_pure. cbn [N.eqb ESC Pos.eqb].
  run_read. cbn [N.eqb Pos.eqb]. run_read.
  repeat (apply elem_of_cons in Hc as [-> | Hc]; [reflexivity|]).
  by apply elem_of_nil in Hc.
Qed.

Lemma slice_to_inside (s : pystr) i :
  0 ≤ i ≤ len s → slice_to s i = take (Z.to_nat i) s.
Proof. intros H. unfold slice_to. by rewrite slice_index_inside. Qed.

Lemma slice_from_inside (s : pystr) i :
  0 ≤ i ≤ len s → slice_from s i = drop (Z.to_nat i) s.
Proof. intros H. unfold slice_from. by rewrite slice_index_inside. Qed.

Lemma splice_take (t : pystr) : ∀ p c,
  (p ≤ length t)%nat → take (S p) (take p t ++ c :: drop p t) = take p t ++ [c].
Proof.
  induction t as [|x t IH]; intros [|p] c H; simpl in *; try lia; try done.
  f_equal. apply IH. lia.
Qed.

Lemma splice_drop (t : pystr) : ∀ p c,
  (p ≤ length t)%nat → drop (S p) (take p t ++ c :: drop p t) = drop p t.
Proof.
  induction t as [|x t IH]; intros [|p] c H; simpl in *; try lia; try done.
  apply IH. lia.
Qed.

Lemma stdin_painted st w : stdin (painted st w) = stdin w.
Proof. reflexivity. Qed.

Lemma passes_trans st w st1 w1 st2 w2 :
  passes st w st1 w1 → passes st1 w1 st2 w2 → passes st w st2 w2.
Proof.
  induction 1 as [|st w sta wa st1 w1 H _ IH]; [done|].
  intros H2. eapply passes_more; [exact H|]. by apply IH.
Qed.

Lemma editing_passes seed w0 st w st' w' :
  editing seed w0 st w → passes st w st' w' → editing seed w0 st' w'.
Proof.
  intros Hed Hp. revert Hed.
  induction Hp as [|st w st1 w1 st' w' H _ IH]; [done|].
  intros Hed. apply IH. by eapply editing_step.
Qed.

Lemma insert_pass st w c rest :
  stdin_isatty w = true →
  0 ≤ position st ≤ len (input_text st) →
  stdin w = c :: rest →
  printable c = true →
  let pos := Z.to_nat (position st) in
  ∃ w',
    loop_body st w =
      (Ok (Continue
             (mkEdit (take pos (input_text st) ++ c :: drop pos (input_text st))
                     (position st + 1))), w') ∧
    stdin w' = rest ∧ stdin_isatty w' = true.
Proof.
  intros Htty Hinv Hin Hc pos. eexists. split; [|split].
  - rewrite (loop_body_insert st w c rest Htty Hin Hc).
    by rewrite slice_to_inside, slice_from_inside.
  - rewrite stdin_after_read, stdin_painted, Hin. reflexivity.
  - exact Htty.
Qed.

(** X1.  A character of 32 or above, other than DEL, is spliced into
    the text at the cursor, and the cursor moves one to the right; the
    pass reads this one character. *)
Theorem printable_character_is_inserted_at_cursor st w c rest :
  stdin_isatty w = true →
  0 ≤ position st ≤ len (input_text st) →
  stdin w = c :: rest →
  printable c = true →
  let pos := Z.to_nat (position st) in
  ∃ w',
    loop_body st w =
      (Ok (Continue
             (mkEdit (take pos (input_text st) ++ c :: drop pos (input_text st))
                     (position st + 1))), w') ∧
    stdin w' = rest ∧ stdin_isatty w' = true.
Proof. apply insert_pass. Qed.

Lemma backspace_pass st w c rest :
  stdin_isatty w = true →
  0 ≤ position st ≤ len (input_text st) →
  stdin w = c :: rest →
  c = 127%N ∨ c = 8%N →
  let pos := Z.to_nat (position st) in
  ∃ w',
    loop_body st w =
      (Ok (Continue
             (if 0 <? position st
              then mkEdit (take (pos - 1) (input_text st)
                             ++ drop pos (input_text st))
                          (position st - 1)
              else st)), w') ∧
    stdin w' = rest.
Proof.
  intros Htty Hinv Hin Hc pos. eexists. split.
  - rewrite (loop_body_backspace st w c rest Htty Hin Hc).
    destruct (Z.ltb_spec 0 (position st)); [|reflexivity].
    rewrite slice_to_inside, slice_from_inside by lia.
    replace (Z.to_nat (position st - 1)) with (pos - 1)%nat by lia. done.
  - rewrite stdin_after_read, stdin_painted, Hin. reflexivity.
Qed.

(** X2.  Backspace, as DEL (127) or as Control-H (8), removes the
    character before the cursor and moves the cursor one to the left;
    with the cursor at 0 it changes nothing. *)
Theorem backspace_removes_character_before_cursor st w c rest :
  stdin_isatty w = true →
  0 ≤ position st ≤ len (input_text st) →
  stdin w = c :: rest →
  c = 127%N ∨ c = 8%N →
  let pos := Z.to_nat (position st) in
  ∃ w',
    loop_body st w =
      (Ok (Continue
             (if 0 <? position st
              then mkEdit (take (pos - 1) (input_text st)
                             ++ drop pos (input_text st))
                          (position st - 1)
              else st)), w') ∧
    stdin w' = rest.
Proof. apply backspace_pass. Qed.

(** X3.  The cursor keys never touch the text: Left ([ESC [ D]) and
    Right ([ESC [ C]) move the cursor by one and stop at the start and
    at the end of the text, Home ([ESC [ H]) puts it at 0 and End
    ([ESC [ F]) after the last character; each reads its three
    characters. *)
Theorem cursor_keys_move_cursor_only st w c3 rest :
  stdin_isatty w = true →
  0 ≤ position st ≤ len (input_text st) →
  stdin w = ESC :: 91%N :: c3 :: rest →
  c3 ∈ [68; 67; 72; 70]%N →
  let pos := position st in
  let last := len (input_text st) in
  let pos' :=
    if (c3 =? 68)%N then (if pos =? 0 then 0 else pos - 1)
    else if (c3 =? 67)%N then (if pos =? last then last else pos + 1)
    else if (c3 =? 72)%N then 0
    else last in
  ∃ w',
    loop_body st w = (Ok (Continue (mkEdit (input_text st) pos')), w') ∧
    stdin w' = rest.
Proof.
  intros Htty Hinv Hin Hc pos last pos'. eexists. split.
  - rewrite (loop_body_move st w c3 rest Htty Hin Hc).
    assert ((if (c3 =? 68)%N then Z.max 0 (position st - 1)
             else if (c3 =? 67)%N
                  then Z.min (len (input_text st)) (position st + 1)
                  else if (c3 =? 72)%N then 0 else len (input_text st))
            = pos') as ->; [|reflexivity].
    unfold pos', pos, last.
    destruct (c3 =? 68)%N; [destruct (Z.eqb_spec (position st) 0); lia|].
    destruct (c3 =? 67)%N; [|done].
    destruct (Z.eqb_spec (position st) (len (input_text st))); lia.
  - rewrite !stdin_after_read, stdin_painted, Hin. reflexivity.
Qed.

Lemma passes_typed (s : pystr) : ∀ st w rest,
  stdin_isatty w = true →
  0 ≤ position st ≤ len (input_text st) →
  stdin w = s ++ rest →
  forallb printable s = true →
  let pos := Z.to_nat (position st) in
  ∃ w',
    passes st w
      (mkEdit (take pos (input_text st) ++ s ++ drop pos (input_text st))
              (position st + len s)) w' ∧
    stdin w' = rest ∧ stdin_isatty w' = true.
Proof.
  induction s as [|c s IH]; intros st w rest Htty Hinv Hin Hs pos.
  { exists w. split; [|done]. destruct st as [text p]. simpl in *.
    unfold len. simpl. rewrite Z.add_0_r.
    unfold pos. simpl. rewrite take_drop. apply passes_none. }
  simpl in Hs. apply andb_true_iff in Hs as [Hc Hs].
  destruct (insert_pass st w c (s ++ rest)
              Htty Hinv Hin Hc) as (w1 & H1 & Hin1 & Htty1).
  fold pos in H1.
  set (st1 := mkEdit (take pos (input_text st) ++ c :: drop pos (input_text st))
                     (position st + 1)) in *.
  assert ((pos ≤ length (input_text st))%nat) as Hpos
    by (unfold pos, len in *; lia).
  assert (0 ≤ position st1 ≤ len (input_text st1)) as Hinv1.
  { unfold st1, len in *. cbn [position input_text].
    rewrite length_app, length_take. cbn [length]. rewrite length_drop. lia. }
  destruct (IH st1 w1 rest Htty1 Hinv1 Hin1 Hs) as (w' & Hp & Hin' & Htty').
  exists w'. split; [|done].
  eapply passes_more; [exact H1|].
  replace (Z.to_nat (position st1)) with (S pos) in Hp
    by (unfold st1; cbn [position]; lia).
  unfold st1 in Hp at 2 3 4. cbn [input_text position] in Hp.
  rewrite splice_take, splice_drop in Hp by done.
  rewrite <- app_assoc in Hp. cbn [app] in Hp.
  replace (position st + len (c :: s)) with (position st + 1 + len s)
    by (unfold len; cbn [length]; lia).
  exact Hp.
Qed.

(** X4.  Typing a run of printable characters inserts the run, in
    order, at the cursor and leaves the cursor after it; the characters
    behind the run are still to be read. *)
Theorem typed_text_is_inserted_at_cursor st w s rest :
  stdin_isatty w = true →
  0 ≤ position st ≤ len (input_text st) →
  stdin w = s ++ rest →
  forallb printable s = true →
  let pos := Z.to_nat (position st) in
  ∃ w',
    passes st w
      (mkEdit (take pos (input_text st) ++ s ++ drop pos (input_text st))
              (position st + len s)) w' ∧
    stdin w' = rest.
Proof.
  intros Htty Hinv Hin Hs pos.
  destruct (passes_typed s st w rest Htty Hinv Hin Hs) as (w' & Hp & Hr & _).
  by exists w'.
Qed.

(** X5.  A printable character followed by Backspace gives back the
    text and the cursor there were before the two keys. *)
Theorem backspace_undoes_insert st w c b rest :
  stdin_isatty w = true →
  0 ≤ position st ≤ len (input_text st) →
  stdin w = c :: b :: rest →
  printable c = true →
  b = 127%N ∨ b = 8%N →
  ∃ w', passes st w st w' ∧ stdin w' = rest.
Proof.
  intros Htty Hinv Hin Hc Hb.
  destruct (insert_pass st w c (b :: rest)
              Htty Hinv Hin Hc) as (w1 & H1 & Hin1 & Htty1).
  set (pos := Z.to_nat (position st)) in *.
  set (st1 := mkEdit (take pos (input_text st) ++ c :: drop pos (input_text st))
                     (position st + 1)) in *.
  assert ((pos ≤ length (input_text st))%nat) as Hpos
    by (unfold pos, len in *; lia).
  assert (0 ≤ position st1 ≤ len (input_text st1)) as Hinv1.
  { unfold st1, len in *. cbn [position input_text].
    rewrite length_app, length_take. cbn [length]. rewrite length_drop. lia. }
  destruct (backspace_pass st1 w1 b rest
              Htty1 Hinv1 Hin1 Hb) as (w2 & H2 & Hin2).
  exists w2. split; [|exact Hin2].
  eapply passes_more; [exact H1|]. eapply passes_more; [|apply passes_none].
  rewrite H2. do 3 f_equal.
  unfold st1. cbn [position input_text].
  destruct (Z.ltb_spec 0 (position st + 1)); [|lia].
  replace (Z.to_nat (position st + 1)) with (S pos) by lia.
  replace (S pos - 1)%nat with pos by lia.
  rewrite splice_drop by done.
  rewrite take_app_le by (rewrite length_take; lia).
  rewrite take_take, Nat.min_id, take_drop.
  replace (position st + 1 - 1) with (position st) by lia.
  by destruct st.
Qed.

(** X6.  After [ESC [ 3] the loop reads one more character and does not
    look at it: whatever stands in the place of [~] is consumed, is
    neither inserted nor taken as a key, and the pass is the same
    Delete. *)
Theorem delete_discards_fourth_character st w c4 rest :
  stdin_isatty w = true →
  stdin w = ESC :: 91%N :: 51%N :: c4 :: rest →
  let with_tilde := set_stdin (ESC :: 91%N :: 51%N :: 126%N :: rest) w in
  (∃ st', (loop_body st w).1 = Ok (Continue st')) ∧
  (loop_body st w).1 = (loop_body st with_tilde).1 ∧
  stdin (loop_body st w).2 = rest ∧
  stdin (loop_body st with_tilde).2 = rest.
Proof.
  intros Htty Hin with_tilde.
  assert (stdin_isatty with_tilde = true) as Htty' by done.
  rewrite (loop_body_delete st w c4 rest Htty Hin).
  rewrite (loop_body_delete st with_tilde 126%N rest Htty' eq_refl).
  cbn [fst snd]. repeat split.
  - eexists. reflexivity.
  - rewrite !stdin_after_read, stdin_painted, Hin. reflexivity.
Qed.

(** X7.  Between two keys the program has started no command, has not
    changed the environment, and the terminal has the attributes it had
    before the session: raw mode is on only while a character is read. *)
Theorem nothing_runs_while_editing command w0 st w :
  stdin_isatty w0 = true →
  editing command (session_start w0) st w →
  calls (trace w) = calls (trace w0) ∧
  environ w = environ w0 ∧
  tty w = tty w0 ∧
  (restores (trace w) + raw_entries (trace w0)
   = restores (trace w0) + raw_entries (trace w))%nat.
Proof.
  intros Htty Hed.
  destruct (editing_session_steady command w0 st w Htty Hed). done.
Qed.

(** X8.  On a terminal, [get_char] returns the next character, or the
    empty string at the end of input, and takes that character off the
    input; it enters raw mode once for the read and puts back the
    attributes it found.  When standard input is not a terminal it
    raises and reads nothing. *)
Theorem get_char_reads_one_character_and_restores w :
  (stdin_isatty w = true →
   ∃ w', get_char w = (Ok (take 1 (stdin w)), w') ∧
         stdin w' = drop 1 (stdin w) ∧
         tty w' = tty w ∧
         trace w' = trace w ++ [TcGetAttr; SetRaw; ReadChar (take 1 (stdin w));
                                TcSetAttr (tty w)] ∧
         stdout w' = stdout w) ∧
  (stdin_isatty w = false → get_char w = (Raise termios_error, w)).
Proof.
  split; intros H.
  - exists (after_read w). by rewrite get_char_tty.
  - by apply get_char_notty.
Qed.

Section Outcomes.

Context (new_AI : exn + os_type).
Context (call_llm : pystr → exn + pystr).
Context (child : list pystr → gmap pystr pystr → exn + Z).

Lemma edit_and_execute_notty command w :
  stdin_isatty w = false →
  edit_and_execute child command w =
  (Raise termios_error,
   set_stdout
     (stdout w ++
        py (String "010"
              (append "Edit command and press Enter to execute, or ESC to cancel:"
                      (String "010" EmptyString))) ++ [LF]) w).
Proof.
  intros H. unfold edit_and_execute.
  unfold mbind at 1. unfold M_bind at 1. unfold print, write.
  unfold mbind at 1. unfold M_bind at 1. unfold tcgetattr.
  cbn [stdin_isatty set_stdout]. rewrite H. reflexivity.
Qed.

(** X9.  When standard input is not a terminal, the session ends as
    soon as the banner is printed: saving the attributes raises, no
    character is read, no command is started, and [main] exits with
    status 1. *)
Theorem without_terminal_session_does_not_start os argv command w :
  new_AI = inr os →
  drop 1 argv ≠ [] →
  call_llm (get_prompt os (join (py " ") (drop 1 argv))) = inr command →
  stdin_isatty w = false →
  let r := run call_llm child os (drop 1 argv) w in
  r.1 = Raise termios_error ∧
  trace r.2 = trace w ∧
  stdin r.2 = stdin w ∧
  exit_status (main new_AI call_llm child argv w).1 = Some 1.
Proof.
  intros Hai Hargs Hllm Htty. cbv zeta.
  rewrite (main_eq _ _ _ _ _ _ Hai Hargs), (run_eq _ _ _ _ _ _ Hllm).
  rewrite (edit_and_execute_notty _ _ Htty). done.
Qed.


(** X11.  When starting the command raises, the program exits with
    status 1: [run] returns 1 for a [CalledProcessError] and lets any
    other exception through to [main]. *)
Theorem command_that_raises_exits_with_one os argv command w0 st w rest e :
  new_AI = inr os →
  drop 1 argv ≠ [] →
  call_llm (get_prompt os (join (py " ") (drop 1 argv))) = inr command →
  stdin_isatty w0 = true →
  editing command (session_start w0) st w →
  stdin w = CR :: rest →
  child (bash_argv (if bool_decide (input_text st = [])
                    then command else input_text st))
        (child_env (environ w0)) = inl e →
  is_Exception e = true →
  (run call_llm child os (drop 1 argv) w0).1
    = (if is_class (py "CalledProcessError") e then Ok 1 else Raise e) ∧
  exit_status (main new_AI call_llm child argv w0).1 = Some 1.
Proof.
  intros Hai Hargs Hllm Htty Hed Hin Hchild He.
  rewrite (main_eq _ _ _ _ _ _ Hai Hargs), (run_eq _ _ _ _ _ _ Hllm).
  destruct (session_confirmed child _ _ _ _ _ Htty Hed Hin) as (_ & _ & Hr).
  rewrite Hchild in Hr.
  destruct (edit_and_execute child command w0) as [r v'].
  simpl in Hr. subst r. cbn [fst].
  destruct (is_class _ e); [done|]. by rewrite He.
Qed.

(** X12.  Without a request on the command line the program prints the
    usage line and exits with status 1; it asks no model and touches
    neither the terminal nor the input. *)
Theorem no_arguments_prints_usage os argv w :
  new_AI = inr os →
  drop 1 argv = [] →
  main new_AI call_llm child argv w =
  (Raise (SystemExit 1),
   set_stdout
     (stdout w ++ py "Usage: ai <your command description>" ++ [LF]) w).
Proof.
  intros Hai Hargs. unfold main, try_except.
  unfold mbind at 1. unfold M_bind at 1. rewrite Hai. cbn [external mret M_ret].
  rewrite bool_decide_eq_true_2 by done. reflexivity.
Qed.

(** X13.  When the configuration cannot be loaded, the program reports
    the error and exits with status 1, whatever the command line is. *)
Theorem failed_setup_exits_with_one argv w cls msg :
  new_AI = inl (Exception cls msg) →
  main new_AI call_llm child argv w =
  (Raise (SystemExit 1),
   set_stdout (stdout w ++ (py "Error: " ++ msg) ++ [LF]) w).
Proof.
  intros Hai. unfold main, try_except.
  unfold mbind at 1. unfold M_bind at 1. rewrite Hai. reflexivity.
Qed.

(** X14.  When the model cannot be asked, the program reports the error
    and exits with status 1 before the session starts: no banner, no
    access to the terminal, nothing read. *)
Theorem failed_translation_exits_with_one os argv w cls msg :
  new_AI = inr os →
  drop 1 argv ≠ [] →
  call_llm (get_prompt os (join (py " ") (drop 1 argv)))
    = inl (Exception cls msg) →
  main new_AI call_llm child argv w =
  (Raise (SystemExit 1),
   set_stdout (stdout w ++ (py "Error: " ++ msg) ++ [LF]) w).
Proof.
  intros Hai Hargs Hllm.
  rewrite (main_eq _ _ _ _ _ _ Hai Hargs).
  unfold run. unfold mbind at 1. unfold M_bind at 1. rewrite Hllm.
  reflexivity.
Qed.

(** X15.  Typing printable characters and then Enter runs the proposed
    command with the typed characters appended. *)
Theorem typed_text_then_enter_runs_extended_command command w0 s rest :
  stdin_isatty w0 = true →
  stdin w0 = s ++ CR :: rest →
  forallb printable s = true →
  calls (trace (edit_and_execute child command w0).2)
  = calls (trace w0) ++
    [Call [py "bash"; py "-c"; command ++ s] (child_env (environ w0))].
Proof.
  intros Htty Hin Hs.
  assert (0 ≤ position (seed_state command)
          ≤ len (input_text (seed_state command))) as Hinv
    by (unfold seed_state, len; simpl; lia).
  destruct (passes_typed s (seed_state command) (session_start w0)
              (CR :: rest) Htty Hinv Hin Hs) as (w & Hp & Hw & _).
  pose proof (editing_passes _ _ _ _ _ _
                (editing_start command (session_start w0)) Hp) as Hed.
  destruct (session_confirmed child _ _ _ _ _ Htty Hed Hw) as (Hc & _ & _).
  rewrite Hc. do 3 f_equal. unfold bash_argv. do 2 f_equal.
  unfold seed_state, len. cbn [input_text position].
  rewrite Nat2Z.id, firstn_all, skipn_all, app_nil_r.
  destruct (decide (command ++ s = [])) as [Hnil|Hnil].
  - rewrite bool_decide_eq_true_2 by done.
    apply app_eq_nil in Hnil as [-> ->]. done.
  - by rewrite bool_decide_eq_false_2.
Qed.

End Outcomes.

(** ** Configuration *)

(** ** Stripping and splitting *)

Lemma lstrip_head (s : pystr) c rest :
  lstrip s = c :: rest → isspace c = false.
Proof.
  induction s as [|x s IH]; simpl; [done|].
  destruct (isspace x) eqn:E; [exact IH|]. by intros [= -> _].
Qed.

Lemma lstrip_fixed c (s : pystr) :
  isspace c = false → lstrip (c :: s) = c :: s.
Proof. intros H. simpl. by rewrite H. Qed.

Lemma rstrip_head c (s : pystr) :
  isspace c = false → ∃ rest, rstrip (c :: s) = c :: rest.
Proof.
  intros H. simpl. destruct (rstrip s); [rewrite H|]; eauto.
Qed.

Lemma rstrip_idem (s : pystr) : rstrip (rstrip s) = rstrip s.
Proof.
  induction s as [|c s IH]; [done|]. simpl.
  destruct (rstrip s) as [|x t] eqn:E.
  - destruct (isspace c) eqn:Ec; [done|]. simpl. by rewrite Ec.
  - change (rstrip (c :: x :: t)) with
      (match rstrip (x :: t) with
       | [] => if isspace c then [] else [c]
       | kept => c :: kept
       end).
    by rewrite IH.
Qed.

(** Stripping twice is stripping once. *)
Lemma strip_idem (s : pystr) : strip (strip s) = strip s.
Proof.
  unfold strip. destruct (lstrip s) as [|c rest] eqn:E; [done|].
  pose proof (lstrip_head _ _ _ E) as Hc.
  destruct (rstrip_head c rest Hc) as [kept Hk]. rewrite Hk.
  rewrite (lstrip_fixed _ _ Hc), <- Hk. apply rstrip_idem.
Qed.

Lemma split_once_found sep (k v : pystr) :
  sep ∉ k → split_once sep (k ++ sep :: v) = [k; v].
Proof.
  induction k as [|c k IH]; intros H; simpl.
  - by rewrite N.eqb_refl.
  - apply not_elem_of_cons in H as [Hc Hk].
    destruct (N.eqb_spec c sep) as [->|_]; [done|]. by rewrite IH.
Qed.

Lemma split_once_absent sep (s : pystr) :
  sep ∉ s → split_once sep s = [s].
Proof.
  induction s as [|c s IH]; intros H; [done|]. simpl.
  apply not_elem_of_cons in H as [Hc Hs].
  destruct (N.eqb_spec c sep) as [->|_]; [done|]. by rewrite IH.
Qed.

Lemma startswith_hash (s : pystr) :
  startswith (py "#") s = bool_decide (head s = Some 35%N).
Proof.
  change (py "#") with [35%N].
  destruct s as [|c s]; [done|]. cbn [startswith head].
  rewrite andb_true_r.
  destruct (N.eqb_spec c 35) as [->|Hne]; [done|].
  symmetry. apply bool_decide_eq_false_2. congruence.
Qed.

(** ** One line of the configuration *)

Lemma config_line_assignment config line (k v : pystr) w :
  strip line = k ++ 61%N :: v →
  61%N ∉ k →
  head (strip line) ≠ Some 35%N →
  config_line config line w = (Ok (<[strip k := strip v]> config), w).
Proof.
  intros Hl Hk Hhash. unfold config_line.
  rewrite startswith_hash, (bool_decide_eq_false_2 _ Hhash).
  rewrite bool_decide_eq_false_2 by (rewrite Hl; by destruct k).
  cbn [negb andb]. rewrite Hl, split_once_found by done. reflexivity.
Qed.

Lemma config_line_skipped config line w :
  strip line = [] ∨ head (strip line) = Some 35%N →
  config_line config line w = (Ok config, w).
Proof.
  intros H. unfold config_line. rewrite startswith_hash.
  destruct H as [H|H].
  - by rewrite H.
  - rewrite (bool_decide_eq_true_2 _ H). by rewrite andb_false_r.
Qed.

Lemma config_line_invalid config line w :
  strip line ≠ [] →
  head (strip line) ≠ Some 35%N →
  61%N ∉ strip line →
  config_line config line w =
  (Ok config,
   set_stdout
     (stdout w ++ (py "Warning: Ignoring invalid config line: " ++ strip line)
        ++ [LF]) w).
Proof.
  intros Hne Hhash Heq. unfold config_line.
  rewrite startswith_hash, (bool_decide_eq_false_2 _ Hhash).
  rewrite (bool_decide_eq_false_2 _ Hne).
  cbn [negb andb]. rewrite split_once_absent by done. reflexivity.
Qed.

(** Every line is of one of the three kinds. *)
Lemma config_line_cases config line w :
  (config_line config line w = (Ok config, w)) ∨
  (config_line config line w =
   (Ok config,
    set_stdout
      (stdout w ++ (py "Warning: Ignoring invalid config line: " ++ strip line)
         ++ [LF]) w)) ∨
  (∃ k v, config_line config line w = (Ok (<[strip k := strip v]> config), w)).
Proof.
  destruct (decide (strip line = [])) as [Hnil|Hnil];
    [left; apply config_line_skipped; by left|].
  destruct (decide (head (strip line) = Some 35%N)) as [Hh|Hh];
    [left; apply config_line_skipped; by right|].
  destruct (decide (61%N ∈ strip line)) as [Hin|Hin].
  - right. right.
    apply list_elem_of_split_l in Hin as (k & v & Hl & Hk).
    exists k, v. by apply config_line_assignment.
  - right. left. by apply config_line_invalid.
Qed.

(** ** The whole file *)

Lemma only_prints_refl w : only_prints w w.
Proof. repeat split. exists []. by rewrite app_nil_r. Qed.

Lemma only_prints_trans w1 w2 w3 :
  only_prints w1 w2 → only_prints w2 w3 → only_prints w1 w3.
Proof.
  intros (? & ? & ? & ? & ? & out1 & Ho1) (? & ? & ? & ? & ? & out2 & Ho2).
  repeat split; try congruence.
  exists (out1 ++ out2). by rewrite Ho2, Ho1, app_assoc.
Qed.

Lemma config_line_spec config line w :
  ∃ c w',
    config_line config line w = (Ok c, w') ∧ only_prints w w' ∧
    (∀ k v, c !! k = Some v →
            config !! k = Some v ∨ (strip k = k ∧ strip v = v)).
Proof.
  destruct (config_line_cases config line w) as [H|[H|(k & v & H)]];
    rewrite H; eexists _, _; (split; [reflexivity|]); split;
    try apply only_prints_refl; eauto.
  - repeat split. eexists. reflexivity.
  - intros k' v' Hl. destruct (decide (strip k = k')) as [<-|Hne].
    + rewrite lookup_insert_eq in Hl. injection Hl as <-.
      right. by rewrite !strip_idem.
    + rewrite lookup_insert_ne in Hl by done. by left.
Qed.

Lemma config_lines_spec lines : ∀ config w,
  ∃ c w',
    config_lines config lines w = (Ok c, w') ∧ only_prints w w' ∧
    (∀ k v, c !! k = Some v →
            config !! k = Some v ∨ (strip k = k ∧ strip v = v)).
Proof.
  induction lines as [|line lines IH]; intros config w.
  { exists config, w. split; [done|]. split; [apply only_prints_refl|eauto]. }
  destruct (config_line_spec config line w) as (c1 & w1 & H1 & Hp1 & Hs1).
  destruct (IH c1 w1) as (c & w' & H & Hp & Hs).
  exists c, w'. split; [|split].
  - simpl. unfold mbind, M_bind. by rewrite H1.
  - by eapply only_prints_trans.
  - intros k v Hl. destruct (Hs k v Hl) as [Hc1|?]; [|by right].
    by apply Hs1.
Qed.

Lemma config_lines_app lines1 : ∀ lines2 config w c1 w1,
  config_lines config lines1 w = (Ok c1, w1) →
  config_lines config (lines1 ++ lines2) w = config_lines c1 lines2 w1.
Proof.
  induction lines1 as [|line lines1 IH]; intros lines2 config w c1 w1 H.
  { by injection H as -> ->. }
  simpl in *. unfold mbind, M_bind in *.
  destruct (config_line config line w) as [[c|e|] w2]; try done.
  by apply IH.
Qed.

Lemma config_lines_last config lines line (k v : pystr) w :
  strip line = k ++ 61%N :: v →
  61%N ∉ k →
  head (strip line) ≠ Some 35%N →
  ∃ c w', config_lines config (lines ++ [line]) w = (Ok c, w') ∧
          c !! strip k = Some (strip v).
Proof.
  intros Hl Hk Hhash.
  destruct (config_lines_spec lines config w) as (c1 & w1 & H1 & _ & _).
  rewrite (config_lines_app _ _ _ _ _ _ H1). simpl.
  unfold mbind, M_bind.
  rewrite (config_line_assignment c1 line k v w1 Hl Hk Hhash).
  eexists _, _. split; [reflexivity|]. apply lookup_insert_eq.
Qed.

Section Config.

Context (config_path : pystr) (format_set : gset pystr → pystr).

(** X16.  A line of the configuration is split at its first [=]: what
    stands before it, stripped, is the key, and everything behind it,
    stripped, is the value, further [=] included.  The entry replaces
    the one the key had. *)
Theorem config_line_is_split_at_first_equals config line (k v : pystr) w :
  strip line = k ++ 61%N :: v →
  61%N ∉ k →
  head (strip line) ≠ Some 35%N →
  ∃ c, config_line config line w = (Ok c, w) ∧
       c !! strip k = Some (strip v) ∧
       (∀ other, other ≠ strip k → c !! other = config !! other).
Proof.
  intros Hl Hk Hhash. eexists. split; [by apply config_line_assignment|].
  split; [apply lookup_insert_eq|].
  intros other Hne. by apply lookup_insert_ne.
Qed.

(** X17.  Blank lines and lines whose first character after stripping
    is [#] are skipped without a word; a line of any other kind without
    [=] is skipped with one warning that quotes it stripped.  None of
    them changes the configuration, and none stops the loading. *)
Theorem config_line_without_assignment_is_skipped config line w :
  (strip line = [] ∨ head (strip line) = Some 35%N →
   config_line config line w = (Ok config, w)) ∧
  (strip line ≠ [] → head (strip line) ≠ Some 35%N → 61%N ∉ strip line →
   config_line config line w =
   (Ok config,
    set_stdout
      (stdout w ++ py "Warning: Ignoring invalid config line: "
         ++ strip line ++ [LF]) w)).
Proof.
  split.
  - apply config_line_skipped.
  - intros Hne Hhash Heq. rewrite config_line_invalid by done.
    by rewrite <- app_assoc.
Qed.

(** X18.  A later assignment to a key overrides the earlier ones: after
    the lines of a file, the key of its last line, when that line is an
    assignment, has the value of that line. *)
Theorem last_assignment_wins config lines line (k v : pystr) w :
  strip line = k ++ 61%N :: v →
  61%N ∉ k →
  head (strip line) ≠ Some 35%N →
  ∃ c w', config_lines config (lines ++ [line]) w = (Ok c, w') ∧
          c !! strip k = Some (strip v).
Proof. apply config_lines_last. Qed.

(** X19.  When the file can be read to its end, loading succeeds
    exactly when both [DEFAULT_PROVIDER] and [DEFAULT_MODEL] have been
    assigned; otherwise it raises [ValueError] naming the keys that are
    missing.  Either way it has only printed warnings: it touches
    neither the terminal nor the input nor the environment. *)
Theorem load_config_requires_both_keys lines w :
  ∃ c w',
    config_lines ∅ lines w = (Ok c, w') ∧ only_prints w w' ∧
    load_config config_path (Some (mkFile lines None)) format_set w =
      (if bool_decide (is_Some (c !! py "DEFAULT_PROVIDER") ∧
                       is_Some (c !! py "DEFAULT_MODEL"))
       then Ok c
       else Raise (Exception (py "ValueError")
                     (py "Missing required config keys: "
                        ++ format_set (required_keys ∖ dom c))),
       w').
Proof.
  destruct (config_lines_spec lines ∅ w) as (c & w' & H & Hp & _).
  exists c, w'. split; [exact H|split; [exact Hp|]].
  unfold load_config. cbn [file_lines file_error].
  unfold mbind at 1. unfold M_bind at 1. rewrite H.
  unfold mbind at 1. unfold M_bind at 1. cbn [mret M_ret].
  destruct (decide (is_Some (c !! py "DEFAULT_PROVIDER") ∧
                    is_Some (c !! py "DEFAULT_MODEL"))) as [[Hp1 Hp2]|Hn].
  - rewrite (bool_decide_eq_true_2 (is_Some _ ∧ is_Some _)) by done.
    rewrite bool_decide_eq_false_2; [done|].
    intros Hne. apply Hne. apply elem_of_dom in Hp1, Hp2.
    apply elem_of_equiv_empty_L. intros x Hx.
    apply elem_of_difference in Hx as [Hx Hnx]. unfold required_keys in Hx.
    apply elem_of_union in Hx as [Hx|Hx]; apply elem_of_singleton in Hx;
      by subst.
  - rewrite (bool_decide_eq_false_2 (is_Some _ ∧ is_Some _)) by done.
    rewrite bool_decide_eq_true_2; [done|].
    intros Hempty. apply Hn. rewrite <- !elem_of_dom.
    assert (∀ key, key ∈ required_keys → key ∈ dom c) as Hall.
    { intros key Hkey. destruct (decide (key ∈ dom c)) as [|Hout]; [done|].
      exfalso. apply (not_elem_of_empty (C:=gset pystr) key).
      rewrite <- Hempty. by apply elem_of_difference. }
    unfold required_keys in Hall.
    split; apply Hall;
      [apply elem_of_union_l|apply elem_of_union_r]; by apply elem_of_singleton.
Qed.

(** X20.  Every key and every value of a loaded configuration is
    stripped: none starts or ends with white space. *)
Theorem loaded_entries_are_stripped file w config w' k v :
  load_config config_path file format_set w = (Ok config, w') →
  config !! k = Some v →
  strip k = k ∧ strip v = v.
Proof.
  intros H Hl. destruct file as [f|]; [|done].
  unfold load_config in H.
  destruct (config_lines_spec (file_lines f) ∅ w) as (c & w1 & Hc & _ & Hs).
  unfold mbind at 1 in H. unfold M_bind at 1 in H. rewrite Hc in H.
  unfold mbind at 1 in H. unfold M_bind at 1 in H.
  destruct (file_error f); [done|]. cbn [mret M_ret] in H.
  destruct (bool_decide _); [done|]. injection H as <- <-.
  destruct (Hs k v Hl) as [He|?]; [|done].
  by rewrite lookup_empty in He.
Qed.

End Config.

(** ** Requests *)


(** ** Choosing the provider *)

Lemma call_llm_unknown {Answer : Type}
    (call_openai call_anthropic call_google call_ollama : pystr → exn + Answer)
    config provider prompt :
  config !! py "DEFAULT_PROVIDER" = Some provider →
  provider ∉ [py "openai"; py "anthropic"; py "google"; py "ollama"] →
  call_llm call_openai call_anthropic call_google call_ollama config prompt
  = inl (Exception (py "Exception") (py "Unknown provider: " ++ provider)).
Proof.
  intros Hp Hn. unfold call_llm, config_get. rewrite Hp.
  repeat (rewrite bool_decide_eq_false_2;
          [|intros ->; apply Hn; repeat constructor]).
  reflexivity.
Qed.

(** X25.  A provider that is none of [openai], [anthropic], [google]
    and [ollama], written exactly so, ends the program before the
    session starts: it prints [Error: Unknown provider: <name>] and
    exits with status 1. *)
Theorem unknown_provider_exits_with_one
    (call_openai call_anthropic call_google call_ollama : pystr → exn + pystr)
    child os argv config provider w :
  drop 1 argv ≠ [] →
  config !! py "DEFAULT_PROVIDER" = Some provider →
  provider ∉ [py "openai"; py "anthropic"; py "google"; py "ollama"] →
  main (inr os)
       (call_llm call_openai call_anthropic call_google call_ollama config)
       child argv w =
  (Raise (SystemExit 1),
   set_stdout (stdout w ++ py "Error: Unknown provider: " ++ provider ++ [LF]) w).
Proof.
  intros Hargs Hp Hn.
  rewrite (main_eq _ _ _ os argv w eq_refl Hargs).
  unfold run. unfold mbind at 1. unfold M_bind at 1.
  rewrite (call_llm_unknown _ _ _ _ _ _ _ Hp Hn).
  cbn [external raise is_Exception exn_str]. by rewrite <- app_assoc.
Qed.

(** X26.  The provider is chosen by the last line that assigns
    [DEFAULT_PROVIDER], with the white space around the key and around
    the name removed: after such a line, [call_llm] calls the method of
    that name. *)
Theorem provider_line_selects_method {Answer : Type}
    (call_openai call_anthropic call_google call_ollama : pystr → exn + Answer)
    config lines line (k v : pystr) w prompt :
  strip line = k ++ 61%N :: v →
  61%N ∉ k →
  head (strip line) ≠ Some 35%N →
  strip k = py "DEFAULT_PROVIDER" →
  ∃ c w',
    config_lines config (lines ++ [line]) w = (Ok c, w') ∧
    let answer :=
      call_llm call_openai call_anthropic call_google call_ollama c prompt in
    (strip v = py "openai" → answer = call_openai prompt) ∧
    (strip v = py "anthropic" → answer = call_anthropic prompt) ∧
    (strip v = py "google" → answer = call_google prompt) ∧
    (strip v = py "ollama" → answer = call_ollama prompt).
Proof.
  intros Hl Hk Hhash Hkey.
  destruct (config_lines_last config lines line k v w Hl Hk Hhash)
    as (c & w' & H & Hc).
  exists c, w'. split; [exact H|]. cbv zeta.
  rewrite Hkey in Hc. unfold call_llm, config_get. rewrite Hc.
  repeat split; intros ->; reflexivity.
Qed.

(** ** The providers *)

Section ProviderProperties.

Context (type_error : json → subscript → pystr).
Context (urlopen : pystr → list (pystr * pystr) → json → http_outcome).
Context (json_loads : pystr → exn + json).
Context (config : gmap pystr pystr).

Lemma config_get_missing key :
  config !! key = None →
  config_get config key = inl (Exception (py "KeyError") (py "'" ++ key ++ py "'")).
Proof. intros H. unfold config_get. by rewrite H. Qed.

Lemma config_get_present key value :
  config !! key = Some value → config_get config key = inr value.
Proof. intros H. unfold config_get. by rewrite H. Qed.

(** X22.  A provider reads its settings before it sends anything: when
    one of them is not in the configuration it raises [KeyError] naming
    the first one missing, in the order the method reads them, whatever
    the network would answer. *)
Theorem provider_raises_on_first_missing_setting prompt key :
  let key_error := Exception (py "KeyError") (py "'" ++ key ++ py "'") in
  (first_missing config
     [py "OPENAI_API_KEY"; py "DEFAULT_MODEL"; py "OPENAI_ENDPOINT"] = Some key →
   call_openai type_error urlopen json_loads config prompt = inl key_error) ∧
  (first_missing config
     [py "ANTHROPIC_API_KEY"; py "DEFAULT_MODEL"; py "ANTHROPIC_ENDPOINT"]
   = Some key →
   call_anthropic type_error urlopen json_loads config prompt = inl key_error) ∧
  (first_missing config [py "GOOGLE_ENDPOINT"; py "GOOGLE_API_KEY"] = Some key →
   call_google type_error urlopen json_loads config prompt = inl key_error).
Proof.
  cbv zeta. repeat split; intros H; cbn [first_missing] in H.
  - unfold call_openai, config_get.
    repeat (destruct (config !! _); [|by injection H as <-]). done.
  - unfold call_anthropic, config_get.
    repeat (destruct (config !! _); [|by injection H as <-]). done.
  - unfold call_google, config_get.
    repeat (destruct (config !! _); [|by injection H as <-]). done.
Qed.

Lemma getitem_key items k v :
  items !! k = Some v → getitem type_error (JDict items) (Key k) = inr v.
Proof. intros H. cbn [getitem]. by rewrite H. Qed.

Lemma getitem_first x more :
  getitem type_error (JList (x :: more)) (Index 0) = inr x.
Proof.
  cbn [getitem]. cbn [length Z.ltb Z.compare].
  replace (0 <? Z.of_nat (S (length more))) with true
    by (symmetry; apply Z.ltb_lt; lia).
  reflexivity.
Qed.

(** X23.  When its settings are there and the request returns JSON of
    the shape the provider documents, each method returns the text of
    the first answer: [choices[0].message.content] for OpenAI,
    [content[0].text] for Anthropic and
    [candidates[0].content.parts[0].text] for Google. *)
Theorem provider_returns_text_of_first_answer prompt result answer :
  (∀ api_key model endpoint headers data top more choice message,
     config !! py "OPENAI_API_KEY" = Some api_key →
     config !! py "DEFAULT_MODEL" = Some model →
     config !! py "OPENAI_ENDPOINT" = Some endpoint →
     make_request urlopen json_loads endpoint headers data = inr result →
     headers = [(py "Content-Type", py "application/json");
                (py "Authorization", py "Bearer " ++ api_key)] →
     data = JDict {[ py "model" := JStr model;
                     py "messages" :=
                       JList [JDict {[ py "role" := JStr (py "user");
                                       py "content" := JStr prompt ]}];
                     py "temperature" := JFloat (py "0.7") ]} →
     result = JDict top →
     top !! py "choices" = Some (JList (JDict choice :: more)) →
     choice !! py "message" = Some (JDict message) →
     message !! py "content" = Some answer →
     call_openai type_error urlopen json_loads config prompt = inr answer) ∧
  (∀ api_key model endpoint headers data top more block,
     config !! py "ANTHROPIC_API_KEY" = Some api_key →
     config !! py "DEFAULT_MODEL" = Some model →
     config !! py "ANTHROPIC_ENDPOINT" = Some endpoint →
     make_request urlopen json_loads endpoint headers data = inr result →
     headers = [(py "Content-Type", py "application/json");
                (py "x-api-key", api_key);
                (py "anthropic-version", py "2023-06-01")] →
     data = JDict {[ py "model" := JStr model;
                     py "max_tokens" := JInt 1000;
                     py "messages" :=
                       JList [JDict {[ py "role" := JStr (py "user");
                                       py "content" := JStr prompt ]}] ]} →
     result = JDict top →
     top !! py "content" = Some (JList (JDict block :: more)) →
     block !! py "text" = Some answer →
     call_anthropic type_error urlopen json_loads config prompt = inr answer) ∧
  (∀ api_key endpoint headers data top more candidate content parts part,
     config !! py "GOOGLE_ENDPOINT" = Some endpoint →
     config !! py "GOOGLE_API_KEY" = Some api_key →
     make_request urlopen json_loads (endpoint ++ py "?key=" ++ api_key)
       headers data = inr result →
     headers = [(py "Content-Type", py "application/json")] →
     data = JDict {[ py "contents" :=
                       JList [JDict {[ py "parts" :=
                          JList [JDict {[ py "text" := JStr prompt ]}] ]}];
                     py "generationConfig" :=
                       JDict {[ py "temperature" := JFloat (py "0.7");
                                py "topK" := JInt 1;
                                py "topP" := JFloat (py "0.8");
                                py "maxOutputTokens" := JInt 1024 ]} ]} →
     result = JDict top →
     top !! py "candidates" = Some (JList (JDict candidate :: more)) →
     candidate !! py "content" = Some (JDict content) →
     content !! py "parts" = Some (JList (JDict part :: parts)) →
     part !! py "text" = Some answer →
     call_google type_error urlopen json_loads config prompt = inr answer).
Proof.
  repeat split.
  - intros api_key model endpoint headers data top more choice message
      Hk Hm He Hr -> -> -> Hc Hmsg Hcontent.
    unfold call_openai.
    rewrite (config_get_present _ _ Hk), (config_get_present _ _ Hm),
      (config_get_present _ _ He), Hr.
    cbn [getpath].
    rewrite (getitem_key _ _ _ Hc), getitem_first, (getitem_key _ _ _ Hmsg).
    by rewrite (getitem_key _ _ _ Hcontent).
  - intros api_key model endpoint headers data top more block
      Hk Hm He Hr -> -> -> Hc Ht.
    unfold call_anthropic.
    rewrite (config_get_present _ _ Hk), (config_get_present _ _ Hm),
      (config_get_present _ _ He), Hr.
    cbn [getpath].
    by rewrite (getitem_key _ _ _ Hc), getitem_first, (getitem_key _ _ _ Ht).
  - intros api_key endpoint headers data top more candidate content parts part
      He Hk Hr -> -> -> Hc Hcontent Hparts Ht.
    unfold call_google.
    rewrite (config_get_present _ _ He), (config_get_present _ _ Hk), Hr.
    cbn [getpath].
    rewrite (getitem_key _ _ _ Hc), getitem_first, (getitem_key _ _ _ Hcontent).
    by rewrite (getitem_key _ _ _ Hparts), getitem_first, (getitem_key _ _ _ Ht).
Qed.

(** X24.  An answer of another shape is not repaired: for OpenAI, JSON
    without [choices] raises [KeyError] naming it, an empty list of
    choices raises [IndexError], and a list where an object is expected
    raises [TypeError].  These exceptions are not wrapped as failures
    of the request. *)
Theorem answer_of_wrong_shape_raises prompt api_key model endpoint result :
  config !! py "OPENAI_API_KEY" = Some api_key →
  config !! py "DEFAULT_MODEL" = Some model →
  config !! py "OPENAI_ENDPOINT" = Some endpoint →
  make_request urlopen json_loads endpoint
    [(py "Content-Type", py "application/json");
     (py "Authorization", py "Bearer " ++ api_key)]
    (JDict {[ py "model" := JStr model;
              py "messages" :=
                JList [JDict {[ py "role" := JStr (py "user");
                                py "content" := JStr prompt ]}];
              py "temperature" := JFloat (py "0.7") ]}) = inr result →
  let answer := call_openai type_error urlopen json_loads config prompt in
  (∀ top, result = JDict top → top !! py "choices" = None →
          answer = inl (Exception (py "KeyError") (py "'choices'"))) ∧
  (∀ top, result = JDict top → top !! py "choices" = Some (JList []) →
          answer = inl (Exception (py "IndexError")
                          (py "list index out of range"))) ∧
  (∀ items, result = JList items →
            answer = inl (Exception (py "TypeError")
                            (type_error result (Key (py "choices"))))).
Proof.
  intros Hk Hm He Hr answer. unfold answer, call_openai.
  rewrite (config_get_present _ _ Hk), (config_get_present _ _ Hm),
    (config_get_present _ _ He), Hr.
  repeat split.
  - intros top -> Hc. cbn [getpath getitem]. by rewrite Hc.
  - intros top -> Hc. cbn [getpath]. rewrite (getitem_key _ _ _ Hc).
    reflexivity.
  - intros items ->. reflexivity.
Qed.

End ProviderProperties.

(** ** The further properties on sample data *)

Lemma printable_character_is_inserted_at_cursor_witness :
  let st := mkEdit (py "ls") 1 in
  let w := sample_world [120; CR]%N in
  let pos := Z.to_nat (position st) in
  ∃ w',
    loop_body st w =
      (Ok (Continue
             (mkEdit (take pos (input_text st) ++ 120%N :: drop pos (input_text st))
                     (position st + 1))), w') ∧
    stdin w' = [CR] ∧ stdin_isatty w' = true.
Proof.
  apply (printable_character_is_inserted_at_cursor (mkEdit (py "ls") 1)
           (sample_world [120; CR]%N) 120%N [CR]).
  - reflexivity.
  - vm_compute. split; discriminate.
  - reflexivity.
  - reflexivity.
Defined.

Lemma backspace_removes_character_before_cursor_witness :
  let st := mkEdit (py "ls") 1 in
  let w := sample_world [127; CR]%N in
  let pos := Z.to_nat (position st) in
  ∃ w',
    loop_body st w =
      (Ok (Continue
             (if 0 <? position st
              then mkEdit (take (pos - 1) (input_text st)
                             ++ drop pos (input_text st))
                          (position st - 1)
              else st)), w') ∧
    stdin w' = [CR].
Proof.
  apply (backspace_removes_character_before_cursor (mkEdit (py "ls") 1)
           (sample_world [127; CR]%N) 127%N [CR]).
  - reflexivity.
  - vm_compute. split; discriminate.
  - reflexivity.
  - by left.
Defined.

(** Right at the end of the text stays at the end. *)
Lemma cursor_keys_move_cursor_only_witness :
  ∃ w',
    loop_body (mkEdit (py "ls") 2) (sample_world [ESC; 91; 67; CR]%N)
    = (Ok (Continue (mkEdit (py "ls") 2)), w') ∧
    stdin w' = [CR].
Proof.
  apply (cursor_keys_move_cursor_only (mkEdit (py "ls") 2)
           (sample_world [ESC; 91; 67; CR]%N) 67%N [CR]).
  - reflexivity.
  - vm_compute. split; discriminate.
  - reflexivity.
  - compute_done.
Defined.

Lemma typed_text_is_inserted_at_cursor_witness :
  let st := mkEdit (py "ls") 1 in
  let pos := Z.to_nat (position st) in
  ∃ w',
    passes st (sample_world (py "abc" ++ [CR]))
      (mkEdit (take pos (input_text st) ++ py "abc" ++ drop pos (input_text st))
              (position st + len (py "abc"))) w' ∧
    stdin w' = [CR].
Proof.
  apply (typed_text_is_inserted_at_cursor (mkEdit (py "ls") 1)
           (sample_world (py "abc" ++ [CR])) (py "abc") [CR]).
  - reflexivity.
  - vm_compute. split; discriminate.
  - reflexivity.
  - reflexivity.
Defined.

Lemma backspace_undoes_insert_witness :
  ∃ w', passes (mkEdit (py "ls") 1) (sample_world [120; 8; CR]%N)
               (mkEdit (py "ls") 1) w' ∧
        stdin w' = [CR].
Proof.
  apply (backspace_undoes_insert (mkEdit (py "ls") 1)
           (sample_world [120; 8; CR]%N) 120%N 8%N [CR]).
  - reflexivity.
  - vm_compute. split; discriminate.
  - reflexivity.
  - reflexivity.
  - by right.
Defined.

(** [ESC [ 3] followed by Enter: the Enter is swallowed. *)
Lemma delete_discards_fourth_character_witness :
  let st := mkEdit (py "ls") 0 in
  let w := sample_world [ESC; 91; 51; CR; 120]%N in
  let with_tilde := set_stdin (ESC :: 91%N :: 51%N :: 126%N :: [120%N]) w in
  (∃ st', (loop_body st w).1 = Ok (Continue st')) ∧
  (loop_body st w).1 = (loop_body st with_tilde).1 ∧
  stdin (loop_body st w).2 = [120%N] ∧
  stdin (loop_body st with_tilde).2 = [120%N].
Proof.
  apply (delete_discards_fourth_character (mkEdit (py "ls") 0)
           (sample_world [ESC; 91; 51; CR; 120]%N) CR [120%N]).
  - reflexivity.
  - reflexivity.
Defined.

Lemma nothing_runs_while_editing_witness :
  let w0 := sample_world [120; CR]%N in
  let w := (loop_body (seed_state (py "ls")) (session_start w0)).2 in
  calls (trace w) = calls (trace w0) ∧
  environ w = environ w0 ∧
  tty w = tty w0 ∧
  (restores (trace w) + raw_entries (trace w0)
   = restores (trace w0) + raw_entries (trace w))%nat.
Proof.
  apply (nothing_runs_while_editing (py "ls") (sample_world [120; CR]%N)
           (mkEdit (py "lsx") 3)).
  - reflexivity.
  - apply editing_next; [apply editing_start|]. vm_compute. reflexivity.
Defined.

Lemma get_char_reads_one_character_and_restores_witness :
  (∃ w', get_char (sample_world [120; CR]%N) = (Ok [120%N], w') ∧
         stdin w' = [CR] ∧ tty w' = Termios 0 false) ∧
  get_char (sample_pipe [120; CR]%N)
  = (Raise termios_error, sample_pipe [120; CR]%N).
Proof.
  split.
  - destruct (proj1 (get_char_reads_one_character_and_restores
                       (sample_world [120; CR]%N)) eq_refl)
      as (w' & H & Hin & Htty & _).
    exists w'. by repeat split.
  - exact (proj2 (get_char_reads_one_character_and_restores
                    (sample_pipe [120; CR]%N)) eq_refl).
Defined.

Lemma without_terminal_session_does_not_start_witness :
  let w := sample_pipe [CR] in
  let r := run sample_llm sample_child linux (drop 1 sample_argv) w in
  r.1 = Raise termios_error ∧
  trace r.2 = trace w ∧
  stdin r.2 = stdin w ∧
  exit_status
    (main (inr linux) sample_llm sample_child sample_argv w).1 = Some 1.
Proof.
  apply (without_terminal_session_does_not_start (inr linux) sample_llm
           sample_child linux sample_argv (py "ls") (sample_pipe [CR]));
    [reflexivity|discriminate|reflexivity|reflexivity].
Defined.


Lemma command_that_raises_exits_with_one_witness :
  let e := Exception (py "FileNotFoundError") (py "bash") in
  let child : list pystr → gmap pystr pystr → exn + Z := λ _ _, inl e in
  let w0 := sample_world [CR] in
  (run sample_llm child linux (drop 1 sample_argv) w0).1
    = (if is_class (py "CalledProcessError") e then Ok 1 else Raise e) ∧
  exit_status (main (inr linux) sample_llm child sample_argv w0).1 = Some 1.
Proof.
  apply (command_that_raises_exits_with_one (inr linux) sample_llm
           (λ _ _, inl (Exception (py "FileNotFoundError") (py "bash")))
           linux sample_argv (py "ls") (sample_world [CR])
           (seed_state (py "ls")) (session_start (sample_world [CR])) []);
    [reflexivity|discriminate|reflexivity|reflexivity|apply editing_start
    |reflexivity|reflexivity|reflexivity].
Defined.

Lemma no_arguments_prints_usage_witness :
  main (inr linux) sample_llm sample_child [py "ai"] (sample_world [CR]) =
  (Raise (SystemExit 1),
   set_stdout
     (stdout (sample_world [CR]) ++ py "Usage: ai <your command description>"
        ++ [LF]) (sample_world [CR])).
Proof.
  apply (no_arguments_prints_usage (inr linux) sample_llm sample_child linux
           [py "ai"] (sample_world [CR])); reflexivity.
Defined.

Lemma failed_setup_exits_with_one_witness :
  main (inl (Exception (py "ValueError") (py "Missing required config keys")))
       sample_llm sample_child sample_argv (sample_world [CR]) =
  (Raise (SystemExit 1),
   set_stdout
     (stdout (sample_world [CR])
        ++ (py "Error: " ++ py "Missing required config keys") ++ [LF])
     (sample_world [CR])).
Proof.
  apply (failed_setup_exits_with_one
           (inl (Exception (py "ValueError") (py "Missing required config keys")))
           sample_llm sample_child sample_argv (sample_world [CR])
           (py "ValueError") (py "Missing required config keys")).
  reflexivity.
Defined.

Lemma failed_translation_exits_with_one_witness :
  let llm : pystr → exn + pystr :=
    λ _, inl (Exception (py "Exception") (py "Request failed: timed out")) in
  main (inr linux) llm sample_child sample_argv (sample_world [CR]) =
  (Raise (SystemExit 1),
   set_stdout
     (stdout (sample_world [CR])
        ++ (py "Error: " ++ py "Request failed: timed out") ++ [LF])
     (sample_world [CR])).
Proof.
  apply (failed_translation_exits_with_one (inr linux)
           (λ _, inl (Exception (py "Exception") (py "Request failed: timed out")))
           sample_child linux sample_argv (sample_world [CR])
           (py "Exception") (py "Request failed: timed out"));
    [reflexivity|discriminate|reflexivity].
Defined.

(** [ -la] typed behind [ls], then Enter: [ls -la] is run. *)
Lemma typed_text_then_enter_runs_extended_command_witness :
  let w0 := sample_world (py " -la" ++ [CR]) in
  calls (trace (edit_and_execute sample_child (py "ls") w0).2)
  = calls (trace w0) ++
    [Call [py "bash"; py "-c"; py "ls" ++ py " -la"] (child_env (environ w0))].
Proof.
  apply (typed_text_then_enter_runs_extended_command sample_child (py "ls")
           (sample_world (py " -la" ++ [CR])) (py " -la") []);
    reflexivity.
Defined.

Lemma config_line_is_split_at_first_equals_witness :
  let line := py "  DEFAULT_MODEL = gpt=4 " ++ [LF] in
  ∃ c, config_line ∅ line (sample_world []) = (Ok c, sample_world []) ∧
       c !! strip (py "DEFAULT_MODEL ") = Some (strip (py " gpt=4")) ∧
       (∀ other, other ≠ strip (py "DEFAULT_MODEL ") →
                 c !! other = (∅ : gmap pystr pystr) !! other).
Proof.
  apply (config_line_is_split_at_first_equals ∅
           (py "  DEFAULT_MODEL = gpt=4 " ++ [LF])
           (py "DEFAULT_MODEL ") (py " gpt=4") (sample_world [])).
  - vm_compute. reflexivity.
  - compute_done.
  - vm_compute. discriminate.
Defined.

Lemma config_line_without_assignment_is_skipped_witness :
  config_line sample_config (py "  # a comment" ++ [LF]) (sample_world [])
  = (Ok sample_config, sample_world []) ∧
  config_line sample_config (py " bogus line " ++ [LF]) (sample_world [])
  = (Ok sample_config,
     set_stdout
       (stdout (sample_world [])
          ++ py "Warning: Ignoring invalid config line: "
          ++ strip (py " bogus line " ++ [LF]) ++ [LF]) (sample_world [])).
Proof.
  split.
  - apply (proj1 (config_line_without_assignment_is_skipped sample_config
                    (py "  # a comment" ++ [LF]) (sample_world []))).
    right. vm_compute. reflexivity.
  - apply (proj2 (config_line_without_assignment_is_skipped sample_config
                    (py " bogus line " ++ [LF]) (sample_world []))).
    + vm_compute. discriminate.
    + vm_compute. discriminate.
    + compute_done.
Defined.

Lemma last_assignment_wins_witness :
  ∃ c w',
    config_lines ∅ (take 5 sample_config_lines
                      ++ [py "  DEFAULT_PROVIDER =  openai  "])
      (sample_world []) = (Ok c, w') ∧
    c !! strip (py "DEFAULT_PROVIDER ") = Some (strip (py "  openai")).
Proof.
  apply (last_assignment_wins ∅ (take 5 sample_config_lines)
           (py "  DEFAULT_PROVIDER =  openai  ")
           (py "DEFAULT_PROVIDER ") (py "  openai") (sample_world [])).
  - vm_compute. reflexivity.
  - compute_done.
  - vm_compute. discriminate.
Defined.

Lemma loaded_entries_are_stripped_witness :
  strip (py "DEFAULT_MODEL") = py "DEFAULT_MODEL" ∧
  strip (py "gpt=4") = py "gpt=4".
Proof.
  apply (loaded_entries_are_stripped (py "/home/user/.cmdline-ai-helper")
           (λ _, [])
           (Some (mkFile sample_config_lines None)) (sample_world [])
           {[ py "DEFAULT_PROVIDER" := py "openai";
              py "DEFAULT_MODEL" := py "gpt=4" ]}
           (load_config (py "/home/user/.cmdline-ai-helper")
              (Some (mkFile sample_config_lines None)) (λ _, [])
              (sample_world [])).2).
  - vm_compute. reflexivity.
  - vm_compute. reflexivity.
Defined.


Lemma unknown_provider_exits_with_one_witness :
  let none : pystr → exn + pystr := λ _, inr (py "ls") in
  main (inr linux)
       (call_llm none none none none {[ py "DEFAULT_PROVIDER" := py "OpenAI" ]})
       sample_child sample_argv (sample_world [CR]) =
  (Raise (SystemExit 1),
   set_stdout
     (stdout (sample_world [CR]) ++ py "Error: Unknown provider: "
        ++ py "OpenAI" ++ [LF]) (sample_world [CR])).
Proof.
  apply (unknown_provider_exits_with_one
           (λ _, inr (py "ls")) (λ _, inr (py "ls"))
           (λ _, inr (py "ls")) (λ _, inr (py "ls"))
           sample_child linux sample_argv
           {[ py "DEFAULT_PROVIDER" := py "OpenAI" ]} (py "OpenAI")
           (sample_world [CR])).
  - discriminate.
  - vm_compute. reflexivity.
  - compute_done.
Defined.

Lemma provider_line_selects_method_witness :
  let o : pystr → exn + pystr := λ _, inr (py "from openai") in
  let other : pystr → exn + pystr := λ _, inr (py "from another") in
  ∃ c w',
    config_lines ∅ (take 5 sample_config_lines
                      ++ [py "  DEFAULT_PROVIDER =  openai  "])
      (sample_world []) = (Ok c, w') ∧
    call_llm o other other other c (py "list files") = o (py "list files").
Proof.
  intros o other.
  destruct (provider_line_selects_method o other other other ∅
              (take 5 sample_config_lines)
              (py "  DEFAULT_PROVIDER =  openai  ")
              (py "DEFAULT_PROVIDER ") (py "  openai") (sample_world [])
              (py "list files"))
    as (c & w' & H & Ho & _).
  - vm_compute. reflexivity.
  - compute_done.
  - vm_compute. discriminate.
  - vm_compute. reflexivity.
  - exists c, w'. split; [exact H|]. apply Ho. vm_compute. reflexivity.
Defined.

(** Without any setting, OpenAI misses its API key first and Google its
    endpoint. *)
Lemma provider_raises_on_first_missing_setting_witness :
  call_openai sample_type_error sample_urlopen sample_json_loads ∅
    (py "list files")
  = inl (Exception (py "KeyError") (py "'" ++ py "OPENAI_API_KEY" ++ py "'")).
Proof.
  apply (proj1 (provider_raises_on_first_missing_setting sample_type_error
                  sample_urlopen sample_json_loads ∅ (py "list files")
                  (py "OPENAI_API_KEY"))).
  vm_compute. reflexivity.
Defined.

Lemma provider_returns_text_of_first_answer_witness :
  call_openai sample_type_error sample_urlopen sample_json_loads sample_config
    (py "list files")
  = inr (JStr (py "ls")).
Proof.
  eapply (proj1 (provider_returns_text_of_first_answer sample_type_error
                   sample_urlopen sample_json_loads sample_config
                   (py "list files") sample_answer (JStr (py "ls")))
            (py "secret") (py "gpt-4") (py "https://example.org/v1")).
  - vm_compute. reflexivity.
  - vm_compute. reflexivity.
  - vm_compute. reflexivity.
  - reflexivity.
  - reflexivity.
  - reflexivity.
  - reflexivity.
  - vm_compute. reflexivity.
  - vm_compute. reflexivity.
  - vm_compute. reflexivity.
Defined.

(** An answer with an empty list of choices. *)
Lemma answer_of_wrong_shape_raises_witness :
  call_openai sample_type_error sample_urlopen
    (λ _, inr (JDict {[ py "choices" := JList [] ]})) sample_config
    (py "list files")
  = inl (Exception (py "IndexError") (py "list index out of range")).
Proof.
  eapply (proj1 (proj2 (answer_of_wrong_shape_raises sample_type_error
                          sample_urlopen
                          (λ _, inr (JDict {[ py "choices" := JList [] ]}))
                          sample_config (py "list files")
                          (py "secret") (py "gpt-4")
                          (py "https://example.org/v1")
                          (JDict {[ py "choices" := JList [] ]}) _ _ _ _))).
  - reflexivity.
  - vm_compute. reflexivity.
  Unshelve.
  + vm_compute. reflexivity.
  + vm_compute. reflexivity.
  + vm_compute. reflexivity.
  + reflexivity.
Defined.
